(** * CIRS2GCRS: the MEX gateway converting CIRS vectors to GCRS

    A shallow embedding of [mexFunction] of
    [Coordinate Systems/Celestial and Terrestrial Systems/CIRS2GCRS.c]
    and the properties of it that the specification states.

    - C [double] is IEEE binary64: [PrimFloat.float].
    - [int] arguments ([nlhs], [nrhs], SOFA status codes) are [Z].
    - [size_t] sizes and offsets into Matlab buffers are [nat]: every offset
      the gateway computes is below the number of elements of an array that
      exists, so no product wraps. A buffer is a [list float] indexed with
      stdpp's lookup [!!] and insert [<[_:=_]>], and an access outside an
      array (undefined behaviour in C) is the outcome [OutOfBounds].
    - [mexErrMsgTxt] aborts the call ([Err]); [mexWarnMsgTxt] and every call of
      an external collaborator is recorded in the trace of the call. *)

From Stdlib Require Import ZArith String Lia Floats.
From stdpp Require Import base list.

Local Open Scope string_scope.
Local Open Scope list_scope.
Local Open Scope nat_scope.

(** ** Matlab arrays *)

Inductive mxClassID :=
| mxDOUBLE_CLASS | mxSINGLE_CLASS | mxLOGICAL_CLASS | mxCHAR_CLASS
| mxCELL_CLASS | mxSTRUCT_CLASS | mxINT_CLASS.

(** An [mxArray] as this gateway observes it: its class and complexity, its
    number of rows [mxGetM], its number of columns [mxGetN] and the
    column-major buffer [mxGetData]. *)
Record mxArray := MxArray {
  mxGetClassID : mxClassID;
  mxIsComplex : bool;
  mxGetM : nat;
  mxGetN : nat;
  mxGetData : list float
}.

(** Matlab keeps [mxGetM a * mxGetN a] elements behind [mxGetData a]. *)
Definition mx_wf (a : mxArray) : Prop :=
  length (mxGetData a) = mxGetM a * mxGetN a.

(** [mxIsEmpty]: the array has no element. *)
Definition mxIsEmpty (a : mxArray) : bool :=
  (mxGetM a * mxGetN a =? 0).

(** [mxCreateDoubleMatrix(m,n,mxREAL)]: a zero-filled real double matrix. *)
Definition mxCreateDoubleMatrix (m n : nat) : mxArray :=
  MxArray mxDOUBLE_CLASS false m n (replicate (m * n) 0%float).

(** ** Vectors and matrices of the SOFA library *)

(** [double p[3]] *)
Definition vec3 : Type := float * float * float.
(** [double r[3][3]], as its three rows *)
Definition mat3 : Type := vec3 * vec3 * vec3.

Definition vget (v : vec3) (i : nat) : float :=
  let '(a, b, c) := v in
  match i with 0 => a | 1 => b | _ => c end.

(** [r[i][j]] *)
Definition mget (r : mat3) (i j : nat) : float :=
  let '(r0, r1, r2) := r in
  match i with 0 => vget r0 j | 1 => vget r1 j | _ => vget r2 j end.

Definition vec3_to_list (v : vec3) : list float :=
  let '(a, b, c) := v in [a; b; c].

(** Modelled from the spec: [iauTr] of the SOFA library, which is not part of
    the source tree. The spec: "the CIRS→GCRS matrix is the transpose of the
    GCRS→CIRS matrix"; the result holds [r[j][i]] at row [i], column [j]. *)
Definition iauTr (r : mat3) : mat3 :=
  ((mget r 0 0, mget r 1 0, mget r 2 0),
   (mget r 0 1, mget r 1 1, mget r 2 1),
   (mget r 0 2, mget r 1 2, mget r 2 2)).

(** One component of a matrix-vector product: [w = 0.0] and then
    [w += r[j][i]*p[i]] for [i = 0, 1, 2]. *)
Definition row_dot (rj p : vec3) : float :=
  (((0 + vget rj 0 * vget p 0) + vget rj 1 * vget p 1) + vget rj 2 * vget p 2)%float.

(** Modelled from the spec: [iauRxp] of the SOFA library, which is not part of
    the source tree. The spec: "out = R · in with R applied on the left to a
    column vector". *)
Definition iauRxp (r : mat3) (p : vec3) : vec3 :=
  let '(r0, r1, r2) := r in (row_dot r0 p, row_dot r1 p, row_dot r2 p).

(** ** Outcomes of a call *)

(** What a call leaves behind besides its result: warnings shown to the
    caller and the calls made to the external collaborators, in order. *)
Inductive event :=
| EvWarn (msg : string)
| EvTttai (tt1 tt2 : float)
| EvTaiutc (tai1 tai2 : float)
| EvGetEOP (utc1 utc2 : float)
| EvXys06a (tt1 tt2 : float)
| EvC2ixys (x y s : float).

Inductive res (A : Type) :=
| Ok (a : A)
| Err (msg : string)      (* mexErrMsgTxt: the call is aborted *)
| OutOfBounds.            (* a read or write outside an array *)
Arguments Ok {A} a.
Arguments Err {A} msg.
Arguments OutOfBounds {A}.

(** A computation: the trace it produced and how it ended. *)
Definition M (A : Type) : Type := list event * res A.

Definition ret {A} (a : A) : M A := ([], Ok a).

Definition bind {A B} (m : M A) (f : A -> M B) : M B :=
  match m with
  | (tr, Ok a) => let '(tr', r) := f a in (tr ++ tr', r)
  | (tr, Err msg) => (tr, Err msg)
  | (tr, OutOfBounds) => (tr, OutOfBounds)
  end.

Declare Scope mex_scope.
Delimit Scope mex_scope with mex.
Notation "x <-- c1 ;; c2" := (bind c1 (fun x => c2))
  (at level 100, c1 at next level, right associativity) : mex_scope.
Notation "c1 ;;; c2" := (bind c1 (fun _ => c2))
  (at level 100, right associativity) : mex_scope.
Local Open Scope mex_scope.

Definition mexErrMsgTxt {A} (msg : string) : M A := ([], Err msg).
Definition mexWarnMsgTxt (msg : string) : M unit := ([EvWarn msg], Ok tt).
Definition emit (e : event) : M unit := ([e], Ok tt).

(** [if(c) { mexErrMsgTxt(msg); }] *)
Definition err_if (c : bool) (msg : string) : M unit :=
  if c then mexErrMsgTxt msg else ret tt.

(** A memory access that may leave its array. *)
Definition access {A} (o : option A) : M A :=
  match o with Some a => ret a | None => ([], OutOfBounds) end.

(** The trace, and the result of the call. *)
Definition trace {A} (m : M A) : list event := fst m.
Definition outcome {A} (m : M A) : res A := snd m.

(** ** The vector transform (lines 175-194) *)

(** Read [p[0], p[1], p[2]] where [p = buf + off]. *)
Definition load3 (buf : list float) (off : nat) : option vec3 :=
  a ← buf !! off; b ← buf !! (off + 1); c ← buf !! (off + 2); Some (a, b, c).

(** Write [rp[0], rp[1], rp[2]] where [rp = buf + off]. *)
Definition store3 (buf : list float) (off : nat) (v : vec3) : option (list float) :=
  if off + 2 <? length buf
  then Some (<[off + 2 := vget v 2]> (<[off + 1 := vget v 1]> (<[off := vget v 0]> buf)))
  else None.

(** [iauRxp(r, src+so, dst+d)] on two distinct buffers. *)
Definition iauRxp_at (r : mat3) (src : list float) (so : nat)
    (dst : list float) (d : nat) : option (list float) :=
  p ← load3 src so; store3 dst d (iauRxp r p).

(** The body of the loop over [curVec]. *)
Definition transform_body (CIRS2GCRS : mat3) (numRow : nat) (xVec : list float)
    (curVec : nat) (retData : list float) : option (list float) :=
  retData ← iauRxp_at CIRS2GCRS xVec (numRow * curVec) retData (numRow * curVec);
  if 3 <? numRow
  then iauRxp_at CIRS2GCRS xVec (numRow * curVec + 3) retData (numRow * curVec + 3)
  else Some retData.

(** [for(curVec=...;curVec<numVec;curVec++)] with [todo = numVec - curVec]
    iterations left. *)
Fixpoint transform_loop (CIRS2GCRS : mat3) (numRow : nat) (xVec : list float)
    (todo curVec : nat) (retData : list float) : option (list float) :=
  match todo with
  | 0 => Some retData
  | S todo' =>
      retData ← transform_body CIRS2GCRS numRow xVec curVec retData;
      transform_loop CIRS2GCRS numRow xVec todo' (S curVec) retData
  end.

(** [retMat=mxCreateDoubleMatrix(numRow,numVec,mxREAL)] filled by the loop. *)
Definition transform_batch (CIRS2GCRS : mat3) (numRow numVec : nat)
    (xVec : list float) : option mxArray :=
  let retMat := mxCreateDoubleMatrix numRow numVec in
  retData ← transform_loop CIRS2GCRS numRow xVec numVec 0 (mxGetData retMat);
  Some (MxArray mxDOUBLE_CLASS false numRow numVec retData).

(** ** The optional rotation-matrix output (lines 197-210) *)

(** [for i, for j: elPtr[i+3*j]=CIRS2GCRS[i][j]] on a fresh 3X3 matrix. *)
Definition rotMat_out (CIRS2GCRS : mat3) : mxArray :=
  let elPtr := mxGetData (mxCreateDoubleMatrix 3 3) in
  let elPtr :=
    foldl (fun elPtr i =>
      foldl (fun elPtr j => <[i + 3 * j := mget CIRS2GCRS i j]> elPtr)
            elPtr [0; 1; 2])
      elPtr [0; 1; 2] in
  MxArray mxDOUBLE_CLASS false 3 3 elPtr.

(** ** The gateway *)

(** Helpers of [MexValidation.h] and the external collaborators, none of
    which is part of the source tree; the gateway is read for any of them. *)
Class Externals := {
  (** [checkRealDoubleArray]: [Some msg] when it raises the error [msg]. *)
  checkRealDoubleArray : mxArray -> option string;
  (** [getDoubleFromMatlab]: the scalar, or the error it raises. *)
  getDoubleFromMatlab : mxArray -> string + float;
  (** [iauTttai], [iauTaiutc]: the status and the two parts written. *)
  iauTttai : float -> float -> Z * float * float;
  iauTaiutc : float -> float -> Z * float * float;
  (** [mexCallMATLAB(2,retVals,2,JulUTCMATLAB,"getEOP")] on the two parts of
      the UTC date: the two arrays returned, or the error of the callee,
      which ends the gateway too. *)
  getEOP : float -> float -> string + (mxArray * mxArray);
  (** [iauXys06a]: [(x, y, s)]. *)
  iauXys06a : float -> float -> float * float * float;
  (** [iauC2ixys]: the GCRS-to-CIRS matrix. *)
  iauC2ixys : float -> float -> float -> mat3
}.

Section Gateway.
Context {ext : Externals}.

Definition check (a : mxArray) : M unit :=
  match checkRealDoubleArray a with
  | Some msg => mexErrMsgTxt msg
  | None => ret tt
  end.

Definition get_double (a : mxArray) : M float :=
  match getDoubleFromMatlab a with
  | inl msg => mexErrMsgTxt msg
  | inr d => ret d
  end.

(** Lines 67-86: argument counts, the batch and the two parts of the date. *)
Definition read_inputs (nlhs : Z) (prhs : list mxArray)
    : M (nat * nat * list float * float * float) :=
  let nrhs := Z.of_nat (length prhs) in
  err_if ((nrhs <? 3)%Z || (nrhs >? 4)%Z) "Wrong number of inputs";;;
  err_if (nlhs >? 2)%Z "Wrong number of outputs.";;;
  x <-- access (prhs !! 0);;
  check x;;;
  let numRow := mxGetM x in
  let numVec := mxGetN x in
  err_if (negb ((numRow =? 3) || (numRow =? 6)))
         "The input vector has a bad dimensionality.";;;
  let xVec := mxGetData x in
  a1 <-- access (prhs !! 1);;
  TT1 <-- get_double a1;;
  a2 <-- access (prhs !! 2);;
  TT2 <-- get_double a2;;
  ret (numRow, numVec, xVec, TT1, TT2).

(** Line 89: [nrhs<4||mxIsEmpty(prhs[3])], the right operand evaluated
    only when the left one is false. *)
Definition offsets_missing (prhs : list mxArray) : M bool :=
  if (Z.of_nat (length prhs) <? 4)%Z then ret true
  else a <-- access (prhs !! 3);; ret (mxIsEmpty a).

(** Lines 125-137: the pole offsets in the second array that [getEOP]
    returned. *)
Definition offsets_of_response (retVals1 : mxArray) : M (float * float) :=
  check retVals1;;;
  err_if (negb (mxGetM retVals1 =? 2) || negb (mxGetN retVals1 =? 1))
         "Error using the getEOP function.";;;
  let dXdY := mxGetData retVals1 in
  dX <-- access (dXdY !! 0);;
  dY <-- access (dXdY !! 1);;
  ret (dX, dY).

(** Lines 90-137: the pole offsets from [getEOP]. [JulUTC] holds the TAI
    date first and is overwritten with the UTC date. *)
Definition offsets_from_getEOP (TT1 TT2 : float) : M (float * float) :=
  emit (EvTttai TT1 TT2);;;
  let '(retVal, JulUTC0, JulUTC1) := iauTttai TT1 TT2 in
  err_if (negb (retVal =? 0)%Z) "An error occurred computing TAI.";;;
  emit (EvTaiutc JulUTC0 JulUTC1);;;
  let '(retVal, JulUTC0, JulUTC1) := iauTaiutc JulUTC0 JulUTC1 in
  (if (retVal =? 1)%Z then mexWarnMsgTxt "Dubious Date entered."
   else if (retVal =? -1)%Z then mexErrMsgTxt "Unacceptable date entered"
   else ret tt);;;
  emit (EvGetEOP JulUTC0 JulUTC1);;;
  match getEOP JulUTC0 JulUTC1 with
  | inl msg => mexErrMsgTxt msg
  | inr (retVals0, retVals1) => offsets_of_response retVals1
  end.

(** Lines 138-154: the pole offsets from the arguments. The array is taken
    from [prhs[4]]. *)
Definition offsets_from_args (prhs : list mxArray) : M (float * float) :=
  a <-- access (prhs !! 4);;
  check a;;;
  let dim1 := mxGetM a in
  let dim2 := mxGetN a in
  if ((dim1 =? 2) && (dim2 =? 1)) || ((dim1 =? 1) && (dim2 =? 2)) then
    let dXdY := mxGetData a in
    dX <-- access (dXdY !! 0);;
    dY <-- access (dXdY !! 1);;
    ret (dX, dY)
  else mexErrMsgTxt "The celestial pole offsets have the wrong dimensionality.".

(** Lines 156-173: the two rotation matrices [(GCRS2CIRS, CIRS2GCRS)]. *)
Definition rotation (TT1 TT2 dX dY : float) : M (mat3 * mat3) :=
  emit (EvXys06a TT1 TT2);;;
  let '(x, y, s) := iauXys06a TT1 TT2 in
  let x := (x + dX)%float in
  let y := (y + dY)%float in
  emit (EvC2ixys x y s);;;
  let GCRS2CIRS := iauC2ixys x y s in
  let CIRS2GCRS := iauTr GCRS2CIRS in
  ret (GCRS2CIRS, CIRS2GCRS).

(** Lines 175-210: the outputs [plhs]. *)
Definition outputs (nlhs : Z) (CIRS2GCRS : mat3) (numRow numVec : nat)
    (xVec : list float) : M (list mxArray) :=
  retMat <-- access (transform_batch CIRS2GCRS numRow numVec xVec);;
  if (nlhs >? 1)%Z then ret [retMat; rotMat_out CIRS2GCRS]
  else ret [retMat].

Definition mexFunction (nlhs : Z) (prhs : list mxArray) : M (list mxArray) :=
  inp <-- read_inputs nlhs prhs;;
  let '(numRow, numVec, xVec, TT1, TT2) := inp in
  missing <-- offsets_missing prhs;;
  dXdY <-- (if missing then offsets_from_getEOP TT1 TT2
            else offsets_from_args prhs);;
  let '(dX, dY) := dXdY in
  rot <-- rotation TT1 TT2 dX dY;;
  let '(GCRS2CIRS, CIRS2GCRS) := rot in
  outputs nlhs CIRS2GCRS numRow numVec xVec.

End Gateway.

(** ** Reference functions for the statements *)

(** The per-vector transform as the specification words it: [R] applied to
    every group of three consecutive components. A vector of dimension 3 is
    one group, a vector of dimension 6 is position then velocity. *)
Fixpoint rotate_triples (R : mat3) (l : list float) : list float :=
  match l with
  | a :: b :: c :: l' => vec3_to_list (iauRxp R (a, b, c)) ++ rotate_triples R l'
  | _ => []
  end.

(** The [i]-th vector of a batch of vectors of dimension [numRow]. *)
Definition slot (numRow i : nat) (buf : list float) : list float :=
  take numRow (drop (numRow * i) buf).

(** Element at row [i], column [j] of a Matlab matrix (column-major). *)
Definition mxGetElem (a : mxArray) (i j : nat) : option float :=
  mxGetData a !! (i + mxGetM a * j).

(** A 3X3 Matlab matrix read as a [double[3][3]]. *)
Definition mat3_of_mx (a : mxArray) : option mat3 :=
  let row i := (x ← mxGetElem a i 0; y ← mxGetElem a i 1; z ← mxGetElem a i 2;
                Some (x, y, z)) in
  r0 ← row 0; r1 ← row 1; r2 ← row 2; Some (r0, r1, r2).

(** The output batch of a call, if it produced one. *)
Definition output_batch (m : M (list mxArray)) : option mxArray :=
  match outcome m with
  | Ok plhs => plhs !! 0
  | _ => None
  end.

(** The trace up to the call of [getEOP] when the dates are accepted. *)
Definition lookup_prefix (TT1 TT2 t1 t2 : float) (st : Z) (u1 u2 : float)
    : list event :=
  [EvTttai TT1 TT2; EvTaiutc t1 t2]
  ++ (if (st =? 1)%Z then [EvWarn "Dubious Date entered."] else [])
  ++ [EvGetEOP u1 u2].

(** ** A concrete instance for the examples *)

Module Fixture.

Definition real_double (m n : nat) (data : list float) : mxArray :=
  MxArray mxDOUBLE_CLASS false m n data.

(** Accepts the real double arrays. *)
Definition check_real_double (a : mxArray) : option string :=
  if mxIsComplex a
  then Some "A parameter that should be real has an imaginary component."
  else match mxGetClassID a with
       | mxDOUBLE_CLASS => None
       | _ => Some "A parameter that should be a double is of another type."
       end.

(** Accepts the arrays of one element. *)
Definition get_scalar (a : mxArray) : string + float :=
  match mxGetData a with
  | [d] => inr d
  | _ => inl "A parameter that should be scalar is not."
  end.

(** Date conversions that answer with the status [st]. *)
Definition tttai (st : Z) (tt1 tt2 : float) : Z * float * float :=
  (st, tt1, (tt2 - 0.0003662109375)%float).
Definition taiutc (st : Z) (tai1 tai2 : float) : Z * float * float :=
  (st, tai1, (tai2 - 0.0003662109375)%float).

(** A lookup that answers with [resp] for the pole offsets. *)
Definition get_eop (resp : mxArray) (utc1 utc2 : float)
    : string + (mxArray * mxArray) :=
  inr (real_double 2 1 [0.125; 0.25]%float, resp).

Definition xys06a (tt1 tt2 : float) : float * float * float :=
  (0.5, 0.25, 0.125)%float.

Definition c2ixys (x y s : float) : mat3 :=
  ((1 - x * x / 2, - s, - x),
   (s, 1 - y * y / 2, - y),
   (x, y, 1 - (x * x + y * y) / 2))%float.

Definition ext (st_tai st_utc : Z) (resp : mxArray) : Externals :=
  {| checkRealDoubleArray := check_real_double;
     getDoubleFromMatlab := get_scalar;
     iauTttai := tttai st_tai;
     iauTaiutc := taiutc st_utc;
     getEOP := get_eop resp;
     iauXys06a := xys06a;
     iauC2ixys := c2ixys |}.

Definition R0 : mat3 := ((0, -1, 0), (1, 0, 0), (0, 0, 1))%float.

Definition batch3 : mxArray := real_double 3 2 [1; 0; 0; 0; 2; 0]%float.
Definition batch6 : mxArray := real_double 6 1 [7000; 0; 0; 0; 7.5; 0]%float.
Definition batch3_empty : mxArray := real_double 3 0 [].
Definition batch4 : mxArray := real_double 4 1 [1; 0; 0; 0]%float.
Definition Jul1 : mxArray := real_double 1 1 [2451545]%float.
Definition Jul2 : mxArray := real_double 1 1 [0]%float.
Definition dXdY_2x1 : mxArray := real_double 2 1 [0.0009765625; 0.001953125]%float.
Definition dXdY_3x1 : mxArray := real_double 3 1 [0.0009765625; 0.001953125; 0.00390625]%float.
Definition dXdY_1x2 : mxArray := real_double 1 2 [0.0009765625; 0.001953125]%float.
Definition dXdY_empty : mxArray := real_double 0 0 [].

(** The arguments of a call without pole offsets. *)
Definition args (x : mxArray) : list mxArray := [x; Jul1; Jul2].

(** The collaborators with an answer of the lookup of the right shape. *)
Definition good (st_tai st_utc : Z) : Externals := ext st_tai st_utc dXdY_2x1.

End Fixture.

(** ** Further reference functions and instances *)

(** The elements of a [double[3][3]] row after row. *)
Definition mat3_to_rows (r : mat3) : list float :=
  let '(r0, r1, r2) := r in
  vec3_to_list r0 ++ vec3_to_list r1 ++ vec3_to_list r2.

(** A real double matrix that holds as many elements as its size says. *)
Definition real_double_matrix (a : mxArray) : Prop :=
  mxGetClassID a = mxDOUBLE_CLASS /\ mxIsComplex a = false /\ mx_wf a.

(** Write [buf[i] = v], inside the buffer or not at all. *)
Definition store1 (buf : list float) (i : nat) (v : float)
    : option (list float) :=
  if i <? length buf then Some (<[i := v]> buf) else None.

(** Lines 202-209 with every store [elPtr[i+3*j]=CIRS2GCRS[i][j]] checked
    against the nine elements of the fresh 3X3 matrix: [None] as soon as a
    store falls outside. *)
Definition rotMat_out_checked (CIRS2GCRS : mat3) : option mxArray :=
  let elPtr := mxGetData (mxCreateDoubleMatrix 3 3) in
  elPtr ←
    foldl (fun acc i =>
      foldl (fun acc j =>
               elPtr ← acc; store1 elPtr (i + 3 * j) (mget CIRS2GCRS i j))
            acc [0; 1; 2])
      (Some elPtr) [0; 1; 2];
  Some (MxArray mxDOUBLE_CLASS false 3 3 elPtr).

Module Probe.

(** The collaborators of [Fixture.good 0 0] with a lookup that fails. *)
Definition eop_fails : Externals :=
  {| checkRealDoubleArray := Fixture.check_real_double;
     getDoubleFromMatlab := Fixture.get_scalar;
     iauTttai := Fixture.tttai 0;
     iauTaiutc := Fixture.taiutc 0;
     getEOP := fun _ _ => inl "Undefined function 'getEOP'.";
     iauXys06a := Fixture.xys06a;
     iauC2ixys := Fixture.c2ixys |}.

(** A complex 2X1 array. *)
Definition complex_2x1 : mxArray :=
  MxArray mxDOUBLE_CLASS true 2 1 [0.5; 0.25]%float.

(** A complex batch of one vector. *)
Definition complex_batch : mxArray :=
  MxArray mxDOUBLE_CLASS true 3 1 [1; 0; 0]%float.

End Probe.

(** * Properties *)

(** ** Buffers *)

Section Buffers.
Implicit Types (l pre post : list float) (R : mat3) (p : vec3).

Lemma lookup_app_plus pre post k :
  (pre ++ post) !! (length pre + k) = post !! k.
Proof.
  rewrite lookup_app_r by lia. f_equal. lia.
Qed.

Lemma load3_app pre a b c post :
  load3 (pre ++ a :: b :: c :: post) (length pre) = Some (a, b, c).
Proof.
  unfold load3.
  rewrite <- (Nat.add_0_r (length pre)) at 1.
  rewrite !lookup_app_plus. reflexivity.
Qed.

Lemma store3_app pre a b c post p :
  store3 (pre ++ a :: b :: c :: post) (length pre) p
  = Some (pre ++ vec3_to_list p ++ post).
Proof.
  unfold store3.
  assert ((length pre + 2 <? length (pre ++ a :: b :: c :: post)) = true) as ->.
  { apply Nat.ltb_lt. rewrite length_app. simpl. lia. }
  rewrite <- (Nat.add_0_r (length pre)) at 3.
  rewrite !insert_app_r. destruct p as [[x y] z]. reflexivity.
Qed.

Lemma store3_length l off p l' :
  store3 l off p = Some l' -> length l' = length l.
Proof.
  unfold store3. case_match; [|discriminate].
  intros [= <-]. by rewrite !length_insert.
Qed.

Lemma iauRxp_at_app R spre a b c spost dpre x y z dpost :
  length spre = length dpre ->
  iauRxp_at R (spre ++ a :: b :: c :: spost) (length spre)
              (dpre ++ x :: y :: z :: dpost) (length spre)
  = Some (dpre ++ vec3_to_list (iauRxp R (a, b, c)) ++ dpost).
Proof.
  intros Hlen. unfold iauRxp_at.
  rewrite load3_app. simpl. rewrite Hlen. apply store3_app.
Qed.

Lemma iauRxp_at_length R src so dst d dst' :
  iauRxp_at R src so dst d = Some dst' -> length dst' = length dst.
Proof.
  unfold iauRxp_at. destruct (load3 src so); simpl; [|discriminate].
  apply store3_length.
Qed.

Lemma vec3_to_list_length p : length (vec3_to_list p) = 3.
Proof. by destruct p as [[? ?] ?]. Qed.

End Buffers.

(** ** The loop over the batch *)

Section Loop.
Variable R : mat3.
Implicit Types (l xVec : list float).

Lemma transform_body_3 sdone a b c srest ddone x y z drest curVec :
  length sdone = 3 * curVec -> length ddone = 3 * curVec ->
  transform_body R 3 (sdone ++ a :: b :: c :: srest) curVec
                     (ddone ++ x :: y :: z :: drest)
  = Some (ddone ++ vec3_to_list (iauRxp R (a, b, c)) ++ drest).
Proof.
  intros Hs Hd. unfold transform_body.
  rewrite <- Hs, iauRxp_at_app by congruence. reflexivity.
Qed.

Lemma transform_body_6 sdone a b c d e f srest ddone x y z u v w drest curVec :
  length sdone = 6 * curVec -> length ddone = 6 * curVec ->
  transform_body R 6 (sdone ++ a :: b :: c :: d :: e :: f :: srest) curVec
                     (ddone ++ x :: y :: z :: u :: v :: w :: drest)
  = Some (ddone ++ vec3_to_list (iauRxp R (a, b, c))
                ++ vec3_to_list (iauRxp R (d, e, f)) ++ drest).
Proof.
  intros Hs Hd. unfold transform_body.
  rewrite <- Hs, iauRxp_at_app by congruence. simpl.
  set (r := vec3_to_list (iauRxp R (a, b, c))).
  replace (sdone ++ a :: b :: c :: d :: e :: f :: srest)
    with ((sdone ++ [a; b; c]) ++ d :: e :: f :: srest)
    by (by rewrite <- app_assoc).
  replace (ddone ++ r ++ u :: v :: w :: drest)
    with ((ddone ++ r) ++ u :: v :: w :: drest)
    by (by rewrite <- app_assoc).
  replace (length sdone + 3) with (length (sdone ++ [a; b; c]))
    by (rewrite length_app; reflexivity).
  rewrite iauRxp_at_app.
  - by rewrite <- app_assoc.
  - rewrite !length_app. subst r. rewrite vec3_to_list_length. simpl. lia.
Qed.

(** The loop invariant: the part of the output that is done holds the
    rotated groups, the rest is as it was. *)
Lemma transform_loop_app numRow :
  numRow = 3 \/ numRow = 6 ->
  forall todo curVec sdone srest ddone drest,
    length sdone = numRow * curVec -> length ddone = numRow * curVec ->
    length srest = numRow * todo -> length drest = numRow * todo ->
    transform_loop R numRow (sdone ++ srest) todo curVec (ddone ++ drest)
    = Some (ddone ++ rotate_triples R srest).
Proof.
  intros HnumRow todo.
  induction todo as [|todo IH]; intros curVec sdone srest ddone drest Hs Hd Hsr Hdr.
  - rewrite Nat.mul_0_r in Hsr, Hdr.
    destruct srest; [|discriminate]. destruct drest; [|discriminate].
    reflexivity.
  - destruct HnumRow as [-> | ->].
    + destruct srest as [|a [|b [|c srest]]]; simpl in Hsr; try lia.
      destruct drest as [|x [|y [|z drest]]]; simpl in Hdr; try lia.
      cbn [transform_loop]. rewrite transform_body_3 by assumption.
      simpl.
      replace (sdone ++ a :: b :: c :: srest)
        with ((sdone ++ [a; b; c]) ++ srest) by (by rewrite <- app_assoc).
      set (r := vec3_to_list (iauRxp R (a, b, c))).
      replace (ddone ++ r ++ drest) with ((ddone ++ r) ++ drest)
        by (by rewrite <- app_assoc).
      rewrite (IH (S curVec)).
      * by rewrite <- app_assoc.
      * rewrite length_app. simpl. lia.
      * rewrite length_app. subst r. rewrite vec3_to_list_length. lia.
      * lia.
      * lia.
    + destruct srest as [|a [|b [|c [|d [|e [|f srest]]]]]]; simpl in Hsr; try lia.
      destruct drest as [|x [|y [|z [|u [|v [|w drest]]]]]]; simpl in Hdr; try lia.
      cbn [transform_loop]. rewrite transform_body_6 by assumption.
      simpl.
      replace (sdone ++ a :: b :: c :: d :: e :: f :: srest)
        with ((sdone ++ [a; b; c; d; e; f]) ++ srest) by (by rewrite <- app_assoc).
      set (r := vec3_to_list (iauRxp R (a, b, c)) ++ vec3_to_list (iauRxp R (d, e, f))).
      replace (ddone ++ vec3_to_list (iauRxp R (a, b, c))
                     ++ vec3_to_list (iauRxp R (d, e, f)) ++ drest)
        with ((ddone ++ r) ++ drest)
        by (subst r; by rewrite <- !app_assoc).
      rewrite (IH (S curVec)).
      * subst r. by rewrite <- !app_assoc.
      * rewrite length_app. simpl. lia.
      * rewrite length_app. subst r.
        rewrite length_app, !vec3_to_list_length. lia.
      * lia.
      * lia.
Qed.

Lemma transform_loop_length numRow xVec :
  forall todo curVec buf out,
    transform_loop R numRow xVec todo curVec buf = Some out ->
    length out = length buf.
Proof.
  induction todo as [|todo IH]; intros curVec buf out; simpl.
  - by intros [= ->].
  - unfold transform_body.
    destruct (iauRxp_at R xVec (numRow * curVec) buf (numRow * curVec))
      as [buf1|] eqn:E1; simpl; [|discriminate].
    apply iauRxp_at_length in E1.
    destruct (3 <? numRow).
    + destruct (iauRxp_at R xVec (numRow * curVec + 3) buf1 (numRow * curVec + 3))
        as [buf2|] eqn:E2; simpl; [|discriminate].
      apply iauRxp_at_length in E2.
      intros H. apply IH in H. congruence.
    + simpl. intros H. apply IH in H. congruence.
Qed.

(** On a well-formed batch the transform returns, and what it returns is
    the rotation of every group of three components. *)
Lemma transform_batch_eq numRow numVec xVec :
  numRow = 3 \/ numRow = 6 ->
  length xVec = numRow * numVec ->
  transform_batch R numRow numVec xVec
  = Some (MxArray mxDOUBLE_CLASS false numRow numVec (rotate_triples R xVec)).
Proof.
  intros HnumRow Hlen. unfold transform_batch. simpl.
  pose proof (transform_loop_app numRow HnumRow numVec 0 [] xVec []
                (replicate (numRow * numVec) 0%float)) as H.
  simpl in H. rewrite H; [reflexivity|lia|lia|assumption|].
  by rewrite length_replicate.
Qed.

End Loop.

(** ** The rotation of the groups of three *)

Section Triples.
Variable R : mat3.
Implicit Types (l : list float) (p : vec3).

Lemma rotate_triples_take3 k l :
  take (3 * k) (rotate_triples R l) = rotate_triples R (take (3 * k) l).
Proof.
  revert l. induction k as [|k IH]; intros l.
  - reflexivity.
  - replace (3 * S k) with (3 + 3 * k) by lia.
    destruct l as [|a [|b [|c l]]]; try reflexivity.
    change (take (3 + 3 * k) (a :: b :: c :: l))
      with (a :: b :: c :: take (3 * k) l).
    cbn [rotate_triples].
    rewrite take_app_add' by (by rewrite vec3_to_list_length).
    by rewrite IH.
Qed.

Lemma rotate_triples_drop3 k l :
  drop (3 * k) (rotate_triples R l) = rotate_triples R (drop (3 * k) l).
Proof.
  revert l. induction k as [|k IH]; intros l.
  - reflexivity.
  - replace (3 * S k) with (3 + 3 * k) by lia.
    destruct l as [|a [|b [|c l]]].
    4: { change (drop (3 + 3 * k) (a :: b :: c :: l)) with (drop (3 * k) l).
         cbn [rotate_triples].
         rewrite drop_app_add' by (by rewrite vec3_to_list_length).
         apply IH. }
    all: cbn [rotate_triples]; rewrite drop_nil.
    all: cbn [drop Nat.add]; by rewrite ?drop_nil.
Qed.

Lemma rotate_triples_length l n :
  length l = 3 * n -> length (rotate_triples R l) = 3 * n.
Proof.
  revert l. induction n as [|n IH]; intros l Hl.
  - by destruct l.
  - destruct l as [|a [|b [|c l]]]; simpl in Hl; try lia.
    cbn [rotate_triples]. rewrite length_app, vec3_to_list_length.
    rewrite (IH l) by lia. lia.
Qed.

Lemma rotate_triples_slot numRow i l :
  numRow = 3 \/ numRow = 6 ->
  slot numRow i (rotate_triples R l) = rotate_triples R (slot numRow i l).
Proof.
  unfold slot. intros [-> | ->].
  - rewrite <- (Nat.mul_1_r 3) at 1 3.
    by rewrite rotate_triples_drop3, rotate_triples_take3.
  - replace (6 * i) with (3 * (2 * i)) by lia.
    change 6 with (3 * 2).
    by rewrite rotate_triples_drop3, rotate_triples_take3.
Qed.

Lemma load3_take_drop l off p :
  load3 l off = Some p <-> take 3 (drop off l) = vec3_to_list p.
Proof.
  unfold load3.
  rewrite <- (Nat.add_0_r off) at 1.
  rewrite <- !lookup_drop.
  destruct p as [[x y] z].
  destruct (drop off l) as [|a [|b [|c l']]]; simpl; split; intros H;
    try discriminate; by inversion H.
Qed.

Lemma load3_is_Some l off :
  off + 2 < length l -> exists p, load3 l off = Some p.
Proof.
  intros Hlt. unfold load3.
  destruct (lookup_lt_is_Some_2 l off) as [a ->]; [lia|].
  destruct (lookup_lt_is_Some_2 l (off + 1)) as [b ->]; [lia|].
  destruct (lookup_lt_is_Some_2 l (off + 2)) as [c ->]; [lia|].
  simpl. by exists (a, b, c).
Qed.

(** Reading group [t] of the rotated buffer gives [R] applied to group [t]
    of the buffer. *)
Lemma load3_rotate_triples l t p :
  load3 l (3 * t) = Some p ->
  load3 (rotate_triples R l) (3 * t) = Some (iauRxp R p).
Proof.
  rewrite !load3_take_drop. intros H.
  rewrite rotate_triples_drop3.
  rewrite <- (Nat.mul_1_r 3) at 1.
  rewrite rotate_triples_take3. rewrite Nat.mul_1_r, H.
  destruct p as [[x y] z]. simpl. by rewrite app_nil_r.
Qed.

(** At every slot of a batch of dimension 3 or 6, the rotated buffer holds
    [R] applied to the first three components, and to the last three when
    there are six. *)
Lemma rotate_triples_slots numRow numVec l :
  numRow = 3 \/ numRow = 6 ->
  length l = numRow * numVec ->
  forall i, i < numVec ->
    exists pos,
      load3 l (numRow * i) = Some pos /\
      load3 (rotate_triples R l) (numRow * i) = Some (iauRxp R pos) /\
      (numRow = 6 ->
       exists vel,
         load3 l (numRow * i + 3) = Some vel /\
         load3 (rotate_triples R l) (numRow * i + 3) = Some (iauRxp R vel)).
Proof.
  intros [-> | ->] Hlen i Hi.
  - destruct (load3_is_Some l (3 * i)) as [pos Hpos]; [lia|].
    exists pos. split; [assumption|]. split; [|discriminate].
    by apply load3_rotate_triples.
  - destruct (load3_is_Some l (3 * (2 * i))) as [pos Hpos]; [lia|].
    destruct (load3_is_Some l (3 * (2 * i + 1))) as [vel Hvel]; [lia|].
    replace (6 * i) with (3 * (2 * i)) by lia.
    replace (3 * (2 * i) + 3) with (3 * (2 * i + 1)) by lia.
    exists pos. split; [assumption|]. split.
    + by apply load3_rotate_triples.
    + intros _. exists vel. split; [assumption|].
      by apply load3_rotate_triples.
Qed.

End Triples.

(** ** The monad of calls *)

Section Monad.
Context {A B : Type}.
Implicit Types (m : M A) (f : A -> M B).

Lemma bind_ret_l (a : A) f : bind (ret a) f = f a.
Proof. unfold bind, ret. by destruct (f a). Qed.

Lemma bind_Ok_eq m f tr1 a tr2 r :
  m = (tr1, Ok a) -> f a = (tr2, r) -> bind m f = (tr1 ++ tr2, r).
Proof. intros -> H. unfold bind. by rewrite H. Qed.

Lemma bind_Err_eq m f tr msg :
  m = (tr, Err msg) -> bind m f = (tr, Err msg).
Proof. by intros ->. Qed.

Lemma bind_ext m f g : (forall a, f a = g a) -> bind m f = bind m g.
Proof.
  intros H. destruct m as [tr [a|msg|]]; simpl; try reflexivity. by rewrite H.
Qed.

Lemma bind_Ok_inv m f tr b :
  bind m f = (tr, Ok b) ->
  exists tr1 a tr2, m = (tr1, Ok a) /\ f a = (tr2, Ok b) /\ tr = tr1 ++ tr2.
Proof.
  destruct m as [tr1 [a|msg|]]; simpl; try discriminate.
  destruct (f a) as [tr2 r] eqn:E. intros [= <- ->]. by exists tr1, a, tr2.
Qed.

End Monad.

Lemma err_if_Ok c msg tr u : err_if c msg = (tr, Ok u) -> c = false /\ tr = [].
Proof. destruct c; simpl; [discriminate|]. by intros [= <- _]. Qed.

Lemma access_Ok {A} (o : option A) tr a :
  access o = (tr, Ok a) -> o = Some a /\ tr = [].
Proof. destruct o; simpl; [|discriminate]. by intros [= <- ->]. Qed.

Lemma emit_bind {B} e (f : unit -> M B) :
  bind (emit e) f = (e :: fst (f tt), snd (f tt)).
Proof. unfold bind, emit. by destruct (f tt). Qed.

(** ** The stages of the gateway *)

Section GatewayStages.
Context {ext : Externals}.

Lemma check_Ok a tr u :
  check a = (tr, Ok u) -> checkRealDoubleArray a = None /\ tr = [].
Proof.
  unfold check. destruct (checkRealDoubleArray a); simpl; [discriminate|].
  by intros [= <- _].
Qed.

Lemma get_double_Ok a tr d :
  get_double a = (tr, Ok d) -> getDoubleFromMatlab a = inr d /\ tr = [].
Proof.
  unfold get_double. destruct (getDoubleFromMatlab a); simpl; [discriminate|].
  by intros [= <- ->].
Qed.

(** A call gets past lines 67-86 only with three or four arguments, at
    most two outputs, a batch of dimension 3 or 6 and two scalars. *)
Lemma read_inputs_Ok nlhs prhs tr v :
  read_inputs nlhs prhs = (tr, Ok v) ->
  tr = [] /\
  exists x a1 a2 rest TT1 TT2,
    prhs = x :: a1 :: a2 :: rest /\ length rest <= 1 /\ (nlhs <= 2)%Z /\
    checkRealDoubleArray x = None /\
    (mxGetM x = 3 \/ mxGetM x = 6) /\
    getDoubleFromMatlab a1 = inr TT1 /\ getDoubleFromMatlab a2 = inr TT2 /\
    v = (mxGetM x, mxGetN x, mxGetData x, TT1, TT2).
Proof.
  unfold read_inputs. intros H.
  apply bind_Ok_inv in H as (t1 & [] & t1' & H1 & H & ->).
  apply err_if_Ok in H1 as [Hn ->].
  apply bind_Ok_inv in H as (t2 & [] & t2' & H2 & H & ->).
  apply err_if_Ok in H2 as [Hl ->].
  apply bind_Ok_inv in H as (t3 & x & t3' & H3 & H & ->).
  apply access_Ok in H3 as [Hx ->].
  apply bind_Ok_inv in H as (t4 & [] & t4' & H4 & H & ->).
  apply check_Ok in H4 as [Hc ->].
  apply bind_Ok_inv in H as (t5 & [] & t5' & H5 & H & ->).
  apply err_if_Ok in H5 as [Hd ->].
  apply bind_Ok_inv in H as (t6 & a1 & t6' & H6 & H & ->).
  apply access_Ok in H6 as [Ha1 ->].
  apply bind_Ok_inv in H as (t7 & TT1 & t7' & H7 & H & ->).
  apply get_double_Ok in H7 as [HT1 ->].
  apply bind_Ok_inv in H as (t8 & a2 & t8' & H8 & H & ->).
  apply access_Ok in H8 as [Ha2 ->].
  apply bind_Ok_inv in H as (t9 & TT2 & t9' & H9 & H & ->).
  apply get_double_Ok in H9 as [HT2 ->].
  injection H as <- <-.
  split; [reflexivity|].
  apply orb_false_elim in Hn as [Hn1 Hn2].
  apply Z.ltb_ge in Hn1. rewrite Z.gtb_ltb in Hn2. apply Z.ltb_ge in Hn2.
  rewrite Z.gtb_ltb in Hl. apply Z.ltb_ge in Hl.
  apply negb_false_iff, orb_true_iff in Hd.
  rewrite !Nat.eqb_eq in Hd.
  destruct prhs as [|x' [|a1' [|a2' rest]]]; simpl in Hn1; try lia.
  simpl in Hx, Ha1, Ha2. injection Hx as ->. injection Ha1 as ->.
  injection Ha2 as ->.
  exists x, a1, a2, rest, TT1, TT2.
  repeat split; try assumption. simpl in Hn2. lia.
Qed.

Lemma read_inputs_intro nlhs x a1 a2 rest TT1 TT2 :
  length rest <= 1 -> (nlhs <= 2)%Z ->
  checkRealDoubleArray x = None ->
  mxGetM x = 3 \/ mxGetM x = 6 ->
  getDoubleFromMatlab a1 = inr TT1 -> getDoubleFromMatlab a2 = inr TT2 ->
  read_inputs nlhs (x :: a1 :: a2 :: rest)
  = ([], Ok (mxGetM x, mxGetN x, mxGetData x, TT1, TT2)).
Proof.
  intros Hrest Hl Hc Hd HT1 HT2. unfold read_inputs.
  assert (((Z.of_nat (length (x :: a1 :: a2 :: rest)) <? 3)%Z
           || (Z.of_nat (length (x :: a1 :: a2 :: rest)) >? 4)%Z) = false) as ->.
  { apply orb_false_intro; [apply Z.ltb_ge|rewrite Z.gtb_ltb; apply Z.ltb_ge];
      simpl length; lia. }
  assert ((nlhs >? 2)%Z = false) as -> by (rewrite Z.gtb_ltb; by apply Z.ltb_ge).
  assert (negb ((mxGetM x =? 3) || (mxGetM x =? 6)) = false) as Hd'.
  { apply negb_false_iff, orb_true_iff. by rewrite !Nat.eqb_eq. }
  unfold err_if, check, get_double. cbn.
  rewrite Hc. cbn. rewrite Hd'. cbn. rewrite HT1. cbn. rewrite HT2.
  reflexivity.
Qed.

(** The gateway is entered with [nrhs] arguments, so [prhs[4]] does not
    exist once line 67 is passed. *)
Lemma offsets_from_args_out_of_bounds prhs :
  length prhs <= 4 -> offsets_from_args prhs = ([], OutOfBounds).
Proof.
  intros Hlen. unfold offsets_from_args.
  rewrite (lookup_ge_None_2 prhs 4) by lia. reflexivity.
Qed.

Lemma rotation_eq TT1 TT2 dX dY :
  rotation TT1 TT2 dX dY =
  let '(x, y, s) := iauXys06a TT1 TT2 in
  let G := iauC2ixys (x + dX)%float (y + dY)%float s in
  ([EvXys06a TT1 TT2; EvC2ixys (x + dX)%float (y + dY)%float s],
   Ok (G, iauTr G)).
Proof.
  unfold rotation. destruct (iauXys06a TT1 TT2) as [[x y] s].
  reflexivity.
Qed.


Lemma offsets_missing_three x a1 a2 :
  offsets_missing [x; a1; a2] = ([], Ok true).
Proof. reflexivity. Qed.

Lemma offsets_missing_four x a1 a2 d :
  offsets_missing [x; a1; a2; d] = ([], Ok (mxIsEmpty d)).
Proof. reflexivity. Qed.

(** *** The answer of [getEOP] *)

Lemma offsets_of_response_bad_shape r :
  mxGetM r <> 2 \/ mxGetN r <> 1 ->
  exists msg,
    offsets_of_response r = ([], Err msg) /\
    (checkRealDoubleArray r = None -> msg = "Error using the getEOP function.").
Proof.
  intros Hshape. unfold offsets_of_response, check.
  destruct (checkRealDoubleArray r) as [msg|].
  - exists msg. split; [reflexivity|discriminate].
  - rewrite bind_ret_l.
    assert ((negb (mxGetM r =? 2) || negb (mxGetN r =? 1)) = true) as ->.
    { apply orb_true_iff. rewrite !negb_true_iff, !Nat.eqb_neq. exact Hshape. }
    eexists. split; reflexivity.
Qed.

Lemma offsets_of_response_good r :
  checkRealDoubleArray r = None -> mxGetM r = 2 -> mxGetN r = 1 -> mx_wf r ->
  exists dX dY,
    mxGetData r = [dX; dY] /\ offsets_of_response r = ([], Ok (dX, dY)).
Proof.
  intros Hc HM HN Hwf. unfold mx_wf in Hwf. rewrite HM, HN in Hwf.
  destruct (mxGetData r) as [|dX [|dY [|? ?]]] eqn:Hdata; try discriminate.
  exists dX, dY. split; [reflexivity|].
  unfold offsets_of_response, check.
  rewrite Hc, HM, HN, Hdata. reflexivity.
Qed.

Lemma offsets_of_response_Ok r tr dX dY :
  offsets_of_response r = (tr, Ok (dX, dY)) ->
  tr = [] /\ checkRealDoubleArray r = None /\ mxGetM r = 2 /\ mxGetN r = 1 /\
  mxGetData r !! 0 = Some dX /\ mxGetData r !! 1 = Some dY.
Proof.
  unfold offsets_of_response. intros H.
  apply bind_Ok_inv in H as (t1 & [] & t1' & H1 & H & ->).
  apply check_Ok in H1 as [Hc ->].
  apply bind_Ok_inv in H as (t2 & [] & t2' & H2 & H & ->).
  apply err_if_Ok in H2 as [Hs ->].
  apply bind_Ok_inv in H as (t3 & dX' & t3' & H3 & H & ->).
  apply access_Ok in H3 as [HdX ->].
  apply bind_Ok_inv in H as (t4 & dY' & t4' & H4 & H & ->).
  apply access_Ok in H4 as [HdY ->].
  injection H as <- <- <-.
  apply orb_false_elim in Hs as [HM HN].
  apply negb_false_iff, Nat.eqb_eq in HM, HN.
  repeat split; assumption.
Qed.

(** *** The date conversions before [getEOP] *)

Lemma offsets_from_getEOP_tai_error TT1 TT2 st t1 t2 :
  iauTttai TT1 TT2 = (st, t1, t2) -> st <> 0%Z ->
  offsets_from_getEOP TT1 TT2
  = ([EvTttai TT1 TT2], Err "An error occurred computing TAI.").
Proof.
  intros Htai Hst. unfold offsets_from_getEOP.
  rewrite emit_bind, Htai.
  apply Z.eqb_neq in Hst. rewrite Hst. reflexivity.
Qed.

Lemma offsets_from_getEOP_unacceptable TT1 TT2 t1 t2 u1 u2 :
  iauTttai TT1 TT2 = (0%Z, t1, t2) -> iauTaiutc t1 t2 = ((-1)%Z, u1, u2) ->
  offsets_from_getEOP TT1 TT2
  = ([EvTttai TT1 TT2; EvTaiutc t1 t2], Err "Unacceptable date entered").
Proof.
  intros Htai Hutc. unfold offsets_from_getEOP.
  rewrite emit_bind, Htai. cbn [Z.eqb negb err_if].
  rewrite bind_ret_l, emit_bind, Hutc. reflexivity.
Qed.

Lemma offsets_from_getEOP_lookup TT1 TT2 t1 t2 st u1 u2 :
  iauTttai TT1 TT2 = (0%Z, t1, t2) -> iauTaiutc t1 t2 = (st, u1, u2) ->
  st <> (-1)%Z ->
  offsets_from_getEOP TT1 TT2
  = bind (lookup_prefix TT1 TT2 t1 t2 st u1 u2, Ok tt)
      (fun _ => match getEOP u1 u2 with
                | inl msg => mexErrMsgTxt msg
                | inr (_, retVals1) => offsets_of_response retVals1
                end).
Proof.
  intros Htai Hutc Hst. unfold offsets_from_getEOP, lookup_prefix.
  rewrite emit_bind, Htai. cbn [Z.eqb negb err_if].
  rewrite bind_ret_l, emit_bind, Hutc.
  apply Z.eqb_neq in Hst. rewrite Hst.
  set (k := match getEOP u1 u2 with
            | inl msg => mexErrMsgTxt msg
            | inr (_, retVals1) => offsets_of_response retVals1
            end).
  destruct (st =? 1)%Z.
  - unfold mexWarnMsgTxt. cbn [bind]. rewrite emit_bind.
    destruct k as [tr r]. reflexivity.
  - rewrite bind_ret_l, emit_bind. cbn [bind app].
    destruct k as [tr r]. reflexivity.
Qed.


(** *** The outputs *)

Lemma transform_batch_shape R numRow numVec xVec retMat :
  transform_batch R numRow numVec xVec = Some retMat ->
  mxGetM retMat = numRow /\ mxGetN retMat = numVec /\
  length (mxGetData retMat) = numRow * numVec.
Proof.
  unfold transform_batch.
  destruct (transform_loop _ _ _ _ _ _) as [out|] eqn:E; simpl; [|discriminate].
  intros [= <-]. simpl. repeat split.
  apply transform_loop_length in E. simpl in E.
  by rewrite length_replicate in E.
Qed.

Lemma outputs_Ok nlhs C numRow numVec xVec tr plhs :
  outputs nlhs C numRow numVec xVec = (tr, Ok plhs) ->
  tr = [] /\
  exists retMat,
    transform_batch C numRow numVec xVec = Some retMat /\
    plhs = retMat :: (if (nlhs >? 1)%Z then [rotMat_out C] else []).
Proof.
  unfold outputs. intros H.
  apply bind_Ok_inv in H as (t1 & retMat & t1' & H1 & H & ->).
  apply access_Ok in H1 as [HretMat ->].
  destruct (nlhs >? 1)%Z; injection H as <- <-; split; eauto.
Qed.

Lemma outputs_intro nlhs C numRow numVec xVec retMat :
  transform_batch C numRow numVec xVec = Some retMat ->
  outputs nlhs C numRow numVec xVec
  = ([], Ok (retMat :: (if (nlhs >? 1)%Z then [rotMat_out C] else []))).
Proof.
  intros H. unfold outputs. rewrite H. cbn [access].
  rewrite bind_ret_l. by destruct (nlhs >? 1)%Z.
Qed.

Lemma rotMat_out_elem C i j :
  i < 3 -> j < 3 -> mxGetElem (rotMat_out C) i j = Some (mget C i j).
Proof.
  intros Hi Hj. destruct C as [[[[a b] c] [[d e] f]] [[g h] k]].
  destruct i as [|[|[|i]]]; try lia;
    destruct j as [|[|[|j]]]; try lia; reflexivity.
Qed.

Lemma mat3_of_mx_rotMat_out C : mat3_of_mx (rotMat_out C) = Some C.
Proof. by destruct C as [[[[a b] c] [[d e] f]] [[g h] k]]. Qed.

Lemma iauTr_mget G i j : i < 3 -> j < 3 -> mget (iauTr G) i j = mget G j i.
Proof.
  intros Hi Hj. destruct G as [[[[a b] c] [[d e] f]] [[g h] k]].
  destruct i as [|[|[|i]]]; try lia;
    destruct j as [|[|[|j]]]; try lia; reflexivity.
Qed.

(** *** The whole call *)

(** After lines 67-89, a call without pole offsets is the lookup followed
    by the rotation and the outputs. *)
Lemma mexFunction_getEOP_path nlhs prhs numRow numVec xVec TT1 TT2 :
  read_inputs nlhs prhs = ([], Ok (numRow, numVec, xVec, TT1, TT2)) ->
  offsets_missing prhs = ([], Ok true) ->
  mexFunction nlhs prhs
  = (dXdY <-- offsets_from_getEOP TT1 TT2;;
     rot <-- rotation TT1 TT2 (fst dXdY) (snd dXdY);;
     outputs nlhs (snd rot) numRow numVec xVec).
Proof.
  intros Hin Hmiss. unfold mexFunction.
  rewrite Hin, Hmiss.
  change ([], Ok (numRow, numVec, xVec, TT1, TT2))
    with (ret (numRow, numVec, xVec, TT1, TT2)).
  rewrite bind_ret_l.
  change (@pair (list event) (res bool) [] (Ok true)) with (ret true).
  rewrite bind_ret_l.
  apply bind_ext. intros [dX dY].
  apply bind_ext. intros [G C]. reflexivity.
Qed.

(** With four arguments of which the last is not empty, line 141 reads
    [prhs[4]]. *)
Lemma mexFunction_args_path nlhs prhs v d :
  read_inputs nlhs prhs = ([], Ok v) ->
  prhs !! 3 = Some d -> mxIsEmpty d = false ->
  mexFunction nlhs prhs = ([], OutOfBounds).
Proof.
  intros Hin Hd Hne. unfold mexFunction.
  rewrite Hin. change (@pair (list event) _ [] (Ok v)) with (ret v).
  rewrite bind_ret_l.
  destruct (read_inputs_Ok _ _ _ _ Hin)
    as (_ & x & a1 & a2 & rest & TT1 & TT2 & -> & Hrest & _ & _ & _ & _ & _ & ->).
  destruct rest as [|d' [|? ?]]; simpl in Hrest; try lia; try discriminate.
  injection Hd as ->.
  rewrite offsets_missing_four, Hne.
  change (@pair (list event) (res bool) [] (Ok false)) with (ret false).
  rewrite bind_ret_l.
  rewrite offsets_from_args_out_of_bounds by (simpl; lia).
  reflexivity.
Qed.

(** What a call that returns has done. *)
Lemma mexFunction_Ok_inv nlhs prhs tr plhs :
  mexFunction nlhs prhs = (tr, Ok plhs) ->
  exists x TT1 TT2 tr0 dX dY tr1 G C retMat,
    prhs !! 0 = Some x /\
    read_inputs nlhs prhs
      = ([], Ok (mxGetM x, mxGetN x, mxGetData x, TT1, TT2)) /\
    offsets_missing prhs = ([], Ok true) /\
    offsets_from_getEOP TT1 TT2 = (tr0, Ok (dX, dY)) /\
    rotation TT1 TT2 dX dY = (tr1, Ok (G, C)) /\
    transform_batch C (mxGetM x) (mxGetN x) (mxGetData x) = Some retMat /\
    plhs = retMat :: (if (nlhs >? 1)%Z then [rotMat_out C] else []) /\
    tr = tr0 ++ tr1.
Proof.
  unfold mexFunction. intros H.
  apply bind_Ok_inv in H as (t1 & inp & t1' & Hin & H & ->).
  destruct (read_inputs_Ok _ _ _ _ Hin)
    as (-> & x & a1 & a2 & rest & TT1 & TT2 & -> & Hrest & _ & _ & _ & _ & _ & ->).
  apply bind_Ok_inv in H as (t2 & missing & t2' & Hmiss & H & ->).
  apply bind_Ok_inv in H as (tr0 & [dX dY] & t3' & Hoff & H & ->).
  apply bind_Ok_inv in H as (tr1 & [G C] & t4' & Hrot & H & ->).
  apply outputs_Ok in H as (-> & retMat & HretMat & ->).
  assert (missing = true) as ->.
  { destruct missing; [reflexivity|].
    rewrite offsets_from_args_out_of_bounds in Hoff by (simpl; lia).
    discriminate. }
  assert (t2 = []) as ->.
  { destruct rest as [|d [|? ?]]; simpl in Hrest; try lia.
    - rewrite offsets_missing_three in Hmiss. by injection Hmiss.
    - rewrite offsets_missing_four in Hmiss. by injection Hmiss. }
  exists x, TT1, TT2, tr0, dX, dY, tr1, G, C, retMat.
  rewrite app_nil_r. simpl. repeat split; assumption.
Qed.


Lemma output_batch_Err tr msg (m : M (list mxArray)) :
  m = (tr, Err msg) -> output_batch m = None.
Proof. by intros ->. Qed.

Lemma read_inputs_three_four nlhs x a1 a2 e :
  read_inputs nlhs [x; a1; a2; e] = read_inputs nlhs [x; a1; a2].
Proof. reflexivity. Qed.

(** A batch of another dimension than 3 or 6 stops the call at line 81
    at the latest. *)
Lemma read_inputs_bad_dimension nlhs prhs x :
  prhs !! 0 = Some x -> mxGetM x <> 3 -> mxGetM x <> 6 ->
  exists msg,
    read_inputs nlhs prhs = ([], Err msg) /\
    (3 <= length prhs <= 4 -> (nlhs <= 2)%Z -> checkRealDoubleArray x = None ->
     msg = "The input vector has a bad dimensionality.").
Proof.
  intros Hx H3 H6. unfold read_inputs.
  set (nrhs := Z.of_nat (length prhs)).
  destruct ((nrhs <? 3)%Z || (nrhs >? 4)%Z) eqn:Hn.
  { eexists. split; [reflexivity|]. intros Hlen.
    apply orb_true_iff in Hn as [Hn|Hn].
    - apply Z.ltb_lt in Hn. lia.
    - rewrite Z.gtb_ltb in Hn. apply Z.ltb_lt in Hn. lia. }
  cbn [err_if]. rewrite bind_ret_l.
  destruct (nlhs >? 2)%Z eqn:Hl.
  { eexists. split; [reflexivity|]. intros _ Hnlhs.
    rewrite Z.gtb_ltb in Hl. apply Z.ltb_lt in Hl. lia. }
  cbn [err_if]. rewrite bind_ret_l, Hx. cbn [access]. rewrite bind_ret_l.
  unfold check. destruct (checkRealDoubleArray x) as [msg|].
  { exists msg. split; [reflexivity|]. discriminate. }
  rewrite bind_ret_l.
  assert (negb ((mxGetM x =? 3) || (mxGetM x =? 6)) = true) as ->.
  { apply negb_true_iff, orb_false_intro; by apply Nat.eqb_neq. }
  eexists. split; reflexivity.
Qed.

End GatewayStages.

(** * The claims of the specification *)

(** ** The vector transform *)

Section TransformClaims.
Variable R : mat3.

(** C3: for a batch of dimension 3 or 6 the transform returns, and at every
    slot [i] the first three components of the output are [R] applied on
    the left to the first three components of the input; when the
    dimension is 6, components 3..5 of the output are the same [R] applied
    to components 3..5 of the input. *)
Theorem transform_batch_rotates numRow numVec (xVec : list float) :
  numRow = 3 \/ numRow = 6 ->
  length xVec = numRow * numVec ->
  exists retMat,
    transform_batch R numRow numVec xVec = Some retMat /\
    forall i, i < numVec ->
      exists pos,
        load3 xVec (numRow * i) = Some pos /\
        load3 (mxGetData retMat) (numRow * i) = Some (iauRxp R pos) /\
        (numRow = 6 ->
         exists vel,
           load3 xVec (numRow * i + 3) = Some vel /\
           load3 (mxGetData retMat) (numRow * i + 3) = Some (iauRxp R vel)).
Proof.
  intros HnumRow Hlen.
  rewrite (transform_batch_eq R numRow numVec xVec HnumRow Hlen).
  eexists. split; [reflexivity|]. cbn [mxGetData].
  by apply rotate_triples_slots.
Qed.

Lemma slot_length numRow numVec i (xVec : list float) :
  length xVec = numRow * numVec -> i < numVec ->
  length (slot numRow i xVec) = numRow * 1.
Proof.
  intros Hlen Hi. unfold slot. rewrite length_take, length_drop, Hlen. nia.
Qed.

(** C8: the output at slot [i] is the transform of the vector at slot [i]
    alone, and it is the same in every batch that holds this vector,
    whatever its other vectors and wherever the vector stands. *)
Theorem transform_batch_slotwise numRow numVec (xVec : list float) i :
  numRow = 3 \/ numRow = 6 ->
  length xVec = numRow * numVec -> i < numVec ->
  exists retMat single,
    transform_batch R numRow numVec xVec = Some retMat /\
    transform_batch R numRow 1 (slot numRow i xVec) = Some single /\
    slot numRow i (mxGetData retMat) = mxGetData single /\
    forall numVec' (xVec' : list float) j,
      length xVec' = numRow * numVec' -> j < numVec' ->
      slot numRow j xVec' = slot numRow i xVec ->
      exists retMat',
        transform_batch R numRow numVec' xVec' = Some retMat' /\
        slot numRow j (mxGetData retMat') = slot numRow i (mxGetData retMat).
Proof.
  intros HnumRow Hlen Hi.
  rewrite (transform_batch_eq R numRow numVec xVec HnumRow Hlen).
  rewrite (transform_batch_eq R numRow 1 (slot numRow i xVec) HnumRow
             (slot_length numRow numVec i xVec Hlen Hi)).
  eexists. eexists. split; [reflexivity|]. split; [reflexivity|].
  cbn [mxGetData]. split.
  - by apply rotate_triples_slot.
  - intros numVec' xVec' j Hlen' Hj Hsame.
    rewrite (transform_batch_eq R numRow numVec' xVec' HnumRow Hlen').
    eexists. split; [reflexivity|]. cbn [mxGetData].
    rewrite !rotate_triples_slot by assumption. by rewrite Hsame.
Qed.

End TransformClaims.

(** ** The gateway *)

Section GatewayClaims.
Context {ext : Externals}.

(** C4: in every call that returns, the matrix used for the transform, and
    returned when asked for, is the transpose of the GCRS-to-CIRS matrix
    that [iauC2ixys] computed, element for element:
    [CIRS2GCRS[i][j] = GCRS2CIRS[j][i]]. *)
Theorem CIRS2GCRS_is_transpose nlhs prhs tr plhs :
  mexFunction nlhs prhs = (tr, Ok plhs) ->
  exists x TT1 TT2 dX dY tr1 GCRS2CIRS CIRS2GCRS retMat,
    prhs !! 0 = Some x /\
    rotation TT1 TT2 dX dY = (tr1, Ok (GCRS2CIRS, CIRS2GCRS)) /\
    (exists xp yp s,
       iauXys06a TT1 TT2 = (xp, yp, s) /\
       GCRS2CIRS = iauC2ixys (xp + dX)%float (yp + dY)%float s) /\
    (forall i j, i < 3 -> j < 3 ->
       mget CIRS2GCRS i j = mget GCRS2CIRS j i) /\
    transform_batch CIRS2GCRS (mxGetM x) (mxGetN x) (mxGetData x)
      = Some retMat /\
    plhs !! 0 = Some retMat /\
    ((1 < nlhs)%Z -> plhs !! 1 = Some (rotMat_out CIRS2GCRS)).
Proof.
  intros H.
  apply mexFunction_Ok_inv in H
    as (x & TT1 & TT2 & tr0 & dX & dY & tr1 & G & C & retMat
        & Hx & _ & _ & _ & Hrot & HretMat & -> & _).
  exists x, TT1, TT2, dX, dY, tr1, G, C, retMat.
  split; [assumption|]. split; [assumption|].
  pose proof (rotation_eq TT1 TT2 dX dY) as Heq. rewrite Hrot in Heq.
  destruct (iauXys06a TT1 TT2) as [[xp yp] s].
  injection Heq as -> -> ->.
  split; [by exists xp, yp, s|].
  split; [intros i j Hi Hj; by apply iauTr_mget|].
  split; [assumption|]. split; [reflexivity|].
  intros Hn. apply Z.gtb_lt in Hn. by rewrite Hn.
Qed.

(** C5: on the path that looks the pole offsets up, a failure of the
    TT-to-TAI conversion ends the call with an error; so does a UTC
    conversion that finds the date unacceptable; so does an answer of
    [getEOP] that is not 2X1; a dubious date gives a warning and the call
    goes on to its result. A call ended by an error has no output batch. *)
Theorem getEOP_path_outcomes nlhs prhs numRow numVec xVec TT1 TT2 :
  read_inputs nlhs prhs = ([], Ok (numRow, numVec, xVec, TT1, TT2)) ->
  offsets_missing prhs = ([], Ok true) ->
  (forall st t1 t2,
      iauTttai TT1 TT2 = (st, t1, t2) -> st <> 0%Z ->
      mexFunction nlhs prhs
      = ([EvTttai TT1 TT2], Err "An error occurred computing TAI.")) /\
  (forall t1 t2 u1 u2,
      iauTttai TT1 TT2 = (0%Z, t1, t2) ->
      iauTaiutc t1 t2 = ((-1)%Z, u1, u2) ->
      mexFunction nlhs prhs
      = ([EvTttai TT1 TT2; EvTaiutc t1 t2], Err "Unacceptable date entered")) /\
  (forall t1 t2 st u1 u2 r0 r1,
      iauTttai TT1 TT2 = (0%Z, t1, t2) ->
      iauTaiutc t1 t2 = (st, u1, u2) -> st <> (-1)%Z ->
      getEOP u1 u2 = inr (r0, r1) ->
      mxGetM r1 <> 2 \/ mxGetN r1 <> 1 ->
      exists msg,
        mexFunction nlhs prhs
        = (lookup_prefix TT1 TT2 t1 t2 st u1 u2, Err msg) /\
        (checkRealDoubleArray r1 = None ->
         msg = "Error using the getEOP function.")) /\
  (forall t1 t2 u1 u2 r0 r1,
      iauTttai TT1 TT2 = (0%Z, t1, t2) ->
      iauTaiutc t1 t2 = (1%Z, u1, u2) ->
      getEOP u1 u2 = inr (r0, r1) ->
      checkRealDoubleArray r1 = None ->
      mxGetM r1 = 2 -> mxGetN r1 = 1 -> mx_wf r1 ->
      length xVec = numRow * numVec ->
      exists tr plhs retMat,
        mexFunction nlhs prhs = (tr, Ok plhs) /\
        EvWarn "Dubious Date entered." ∈ tr /\
        output_batch (mexFunction nlhs prhs) = Some retMat) /\
  (forall tr msg,
      mexFunction nlhs prhs = (tr, Err msg) ->
      output_batch (mexFunction nlhs prhs) = None).
Proof.
  intros Hin Hmiss.
  pose proof (mexFunction_getEOP_path _ _ _ _ _ _ _ Hin Hmiss) as Hmex.
  repeat split.
  - intros st t1 t2 Htai Hst. rewrite Hmex.
    apply bind_Err_eq. by eapply offsets_from_getEOP_tai_error.
  - intros t1 t2 u1 u2 Htai Hutc. rewrite Hmex.
    apply bind_Err_eq. by eapply offsets_from_getEOP_unacceptable.
  - intros t1 t2 st u1 u2 r0 r1 Htai Hutc Hst Heop Hshape.
    destruct (offsets_of_response_bad_shape r1 Hshape) as (msg & Hresp & Hmsg).
    exists msg. split; [|assumption]. rewrite Hmex.
    apply bind_Err_eq.
    rewrite (offsets_from_getEOP_lookup _ _ _ _ _ _ _ Htai Hutc Hst), Heop, Hresp.
    cbn [bind]. by rewrite app_nil_r.
  - intros t1 t2 u1 u2 r0 r1 Htai Hutc Heop Hc HM HN Hwf Hlen.
    destruct (read_inputs_Ok _ _ _ _ Hin)
      as (_ & x & a1 & a2 & rest & T1 & T2 & _ & _ & _ & _ & Hdim & _ & _ & Hv).
    injection Hv as -> -> -> -> ->.
    destruct (offsets_of_response_good r1 Hc HM HN Hwf) as (dX & dY & _ & Hresp).
    assert (offsets_from_getEOP T1 T2
            = (lookup_prefix T1 T2 t1 t2 1 u1 u2, Ok (dX, dY))) as Hoff.
    { rewrite (offsets_from_getEOP_lookup _ _ _ _ _ _ _ Htai Hutc) by lia.
      rewrite Heop, Hresp. cbn [bind]. by rewrite app_nil_r. }
    pose proof (rotation_eq T1 T2 dX dY) as Hrot. cbn [fst snd] in Hrot.
    destruct (iauXys06a T1 T2) as [[xp yp] s].
    set (G := iauC2ixys (xp + dX)%float (yp + dY)%float s) in *.
    pose proof (transform_batch_eq (iauTr G) _ _ _ Hdim Hlen) as Hbatch.
    pose proof (outputs_intro nlhs _ _ _ _ _ Hbatch) as Hout.
    assert (mexFunction nlhs prhs
            = (lookup_prefix T1 T2 t1 t2 1 u1 u2
                 ++ [EvXys06a T1 T2; EvC2ixys (xp + dX)%float (yp + dY)%float s]
                 ++ [],
               Ok (MxArray mxDOUBLE_CLASS false (mxGetM x) (mxGetN x)
                     (rotate_triples (iauTr G) (mxGetData x))
                   :: (if (nlhs >? 1)%Z then [rotMat_out (iauTr G)] else []))))
      as Hres.
    { rewrite Hmex. eapply bind_Ok_eq; [exact Hoff|].
      eapply bind_Ok_eq; [exact Hrot|]. exact Hout. }
    rewrite Hres. eexists. eexists. eexists.
    split; [reflexivity|]. split; [|reflexivity].
    unfold lookup_prefix. cbn [Z.eqb Pos.eqb].
    rewrite !elem_of_app. left. right. left. apply list_elem_of_here.
  - intros tr msg H. by rewrite H.
Qed.

(** C6: a batch whose dimension is neither 3 nor 6 ends the call with an
    error before any date conversion, lookup or rotation is started, and
    without an output; when the argument counts and the array are accepted
    the error is the one of line 81. *)
Theorem bad_dimension_rejected nlhs prhs x :
  prhs !! 0 = Some x -> mxGetM x <> 3 -> mxGetM x <> 6 ->
  exists msg,
    mexFunction nlhs prhs = ([], Err msg) /\
    output_batch (mexFunction nlhs prhs) = None /\
    (3 <= length prhs <= 4 -> (nlhs <= 2)%Z -> checkRealDoubleArray x = None ->
     msg = "The input vector has a bad dimensionality.").
Proof.
  intros Hx H3 H6.
  destruct (read_inputs_bad_dimension nlhs prhs x Hx H3 H6) as (msg & Hin & Hmsg).
  assert (mexFunction nlhs prhs = ([], Err msg)) as Hmex.
  { unfold mexFunction. by apply bind_Err_eq. }
  exists msg. split; [assumption|]. split; [by rewrite Hmex|assumption].
Qed.

(** C7: the output batch of a call that returns has the dimension and the
    number of vectors of the input batch; and a call on a batch of no
    vector, when its dates are read and its pole offsets are looked up,
    returns an empty batch of the same dimension. *)
Theorem output_batch_shape nlhs prhs :
  (forall tr plhs,
      mexFunction nlhs prhs = (tr, Ok plhs) ->
      exists x retMat,
        prhs !! 0 = Some x /\
        output_batch (mexFunction nlhs prhs) = Some retMat /\
        (mxGetM x = 3 \/ mxGetM x = 6) /\
        mxGetM retMat = mxGetM x /\ mxGetN retMat = mxGetN x /\
        length (mxGetData retMat) = mxGetM x * mxGetN x) /\
  (forall numRow xVec TT1 TT2 tr0 dX dY,
      read_inputs nlhs prhs = ([], Ok (numRow, 0, xVec, TT1, TT2)) ->
      offsets_missing prhs = ([], Ok true) ->
      offsets_from_getEOP TT1 TT2 = (tr0, Ok (dX, dY)) ->
      exists tr plhs,
        mexFunction nlhs prhs = (tr, Ok plhs) /\
        output_batch (mexFunction nlhs prhs)
        = Some (MxArray mxDOUBLE_CLASS false numRow 0 [])).
Proof.
  split.
  - intros tr plhs H. rewrite H.
    apply mexFunction_Ok_inv in H
      as (x & TT1 & TT2 & tr0 & dX & dY & tr1 & G & C & retMat
          & Hx & Hin & _ & _ & _ & HretMat & -> & _).
    apply read_inputs_Ok in Hin
      as (_ & x' & a1 & a2 & rest & T1 & T2 & -> & _ & _ & _ & Hdim & _ & _ & Hv).
    injection Hx as ->. 
    apply transform_batch_shape in HretMat as (HM & HN & Hdata).
    exists x, retMat. repeat split; assumption.
  - intros numRow xVec TT1 TT2 tr0 dX dY Hin Hmiss Hoff.
    pose proof (mexFunction_getEOP_path _ _ _ _ _ _ _ Hin Hmiss) as Hmex.
    pose proof (rotation_eq TT1 TT2 dX dY) as Hrot.
    destruct (iauXys06a TT1 TT2) as [[xp yp] s]. cbn zeta in Hrot.
    set (G := iauC2ixys (xp + dX)%float (yp + dY)%float s) in *.
    assert (transform_batch (iauTr G) numRow 0 xVec
            = Some (MxArray mxDOUBLE_CLASS false numRow 0 [])) as Hbatch.
    { unfold transform_batch. cbn. by rewrite Nat.mul_0_r. }
    pose proof (outputs_intro nlhs _ _ _ _ _ Hbatch) as Hout.
    rewrite Hmex.
    rewrite (bind_Ok_eq _ _ _ _ _ _ Hoff
               (bind_Ok_eq _ _ _ _ _ _ Hrot Hout)).
    eexists. eexists. split; reflexivity.
Qed.

(** C9: when the rotation matrix is asked for, the second output is a 3X3
    matrix that holds [CIRS2GCRS[i][j]] at the flat index [i+3*j], that is
    at row [i] and column [j]; read back as a matrix and applied on the left
    to a vector of the batch, it gives the vector of the output batch. *)
Theorem rotMat_is_CIRS2GCRS nlhs prhs tr plhs :
  mexFunction nlhs prhs = (tr, Ok plhs) -> (1 < nlhs)%Z ->
  exists x TT1 TT2 dX dY tr1 GCRS2CIRS CIRS2GCRS retMat rotMat,
    prhs !! 0 = Some x /\
    rotation TT1 TT2 dX dY = (tr1, Ok (GCRS2CIRS, CIRS2GCRS)) /\
    plhs = [retMat; rotMat] /\
    mxGetM rotMat = 3 /\ mxGetN rotMat = 3 /\
    (forall i j, i < 3 -> j < 3 ->
       mxGetData rotMat !! (i + 3 * j) = Some (mget CIRS2GCRS i j)) /\
    mat3_of_mx rotMat = Some CIRS2GCRS /\
    (mx_wf x ->
     forall i, i < mxGetN x ->
       exists pos,
         load3 (mxGetData x) (mxGetM x * i) = Some pos /\
         (Rv ← mat3_of_mx rotMat; Some (iauRxp Rv pos))
         = load3 (mxGetData retMat) (mxGetM x * i) /\
         (mxGetM x = 6 ->
          exists vel,
            load3 (mxGetData x) (mxGetM x * i + 3) = Some vel /\
            (Rv ← mat3_of_mx rotMat; Some (iauRxp Rv vel))
            = load3 (mxGetData retMat) (mxGetM x * i + 3))).
Proof.
  intros H Hn.
  apply mexFunction_Ok_inv in H
    as (x & TT1 & TT2 & tr0 & dX & dY & tr1 & G & C & retMat
        & Hx & Hin & _ & _ & Hrot & HretMat & -> & _).
  apply Z.gtb_lt in Hn. rewrite Hn.
  exists x, TT1, TT2, dX, dY, tr1, G, C, retMat, (rotMat_out C).
  split; [assumption|]. split; [assumption|]. split; [reflexivity|].
  split; [reflexivity|]. split; [reflexivity|].
  split; [intros i j Hi Hj; by apply (rotMat_out_elem C i j)|].
  split; [apply mat3_of_mx_rotMat_out|].
  intros Hwf i Hi. rewrite mat3_of_mx_rotMat_out. cbn [mbind option_bind].
  apply read_inputs_Ok in Hin
    as (_ & x' & a1 & a2 & rest & T1 & T2 & -> & _ & _ & _ & Hdim & _ & _ & _).
  injection Hx as ->.
  rewrite (transform_batch_eq C _ _ _ Hdim Hwf) in HretMat.
  injection HretMat as <-. cbn [mxGetData].
  destruct (rotate_triples_slots C _ _ _ Hdim Hwf i Hi)
    as (pos & Hpos & Hout & Hvel).
  exists pos. split; [assumption|]. split; [by rewrite Hout|].
  intros H6. destruct (Hvel H6) as (vel & Hv & Hvout).
  exists vel. split; [assumption|]. by rewrite Hvout.
Qed.

(** The trace of a sequence starts with the trace of its first part. *)
Lemma bind_trace_prefix {A B} (m : M A) (f : A -> M B) :
  exists tr2, fst (bind m f) = fst m ++ tr2.
Proof.
  destruct m as [tr [a|msg|]]; simpl.
  - destruct (f a) as [tr2 r]. by exists tr2.
  - exists []. by rewrite app_nil_r.
  - exists []. by rewrite app_nil_r.
Qed.

(** The lookup starts with the call of [iauTttai] at the date it is given. *)
Lemma offsets_from_getEOP_starts TT1 TT2 :
  exists tr', fst (offsets_from_getEOP TT1 TT2) = EvTttai TT1 TT2 :: tr'.
Proof. unfold offsets_from_getEOP. rewrite emit_bind. by eexists. Qed.

(** A call on the lookup path whose dates are accepted and whose lookup
    answers with a 2X1 array. *)
Lemma lookup_path_result nlhs prhs numRow numVec xVec TT1 TT2
    t1 t2 st u1 u2 r0 r1 dX dY xp yp s :
  read_inputs nlhs prhs = ([], Ok (numRow, numVec, xVec, TT1, TT2)) ->
  offsets_missing prhs = ([], Ok true) ->
  iauTttai TT1 TT2 = (0%Z, t1, t2) ->
  iauTaiutc t1 t2 = (st, u1, u2) -> st <> (-1)%Z ->
  getEOP u1 u2 = inr (r0, r1) ->
  checkRealDoubleArray r1 = None -> mxGetM r1 = 2 -> mxGetN r1 = 1 ->
  mxGetData r1 !! 0 = Some dX -> mxGetData r1 !! 1 = Some dY ->
  iauXys06a TT1 TT2 = (xp, yp, s) ->
  length xVec = numRow * numVec ->
  mexFunction nlhs prhs
  = (lookup_prefix TT1 TT2 t1 t2 st u1 u2
       ++ [EvXys06a TT1 TT2; EvC2ixys (xp + dX)%float (yp + dY)%float s],
     Ok (MxArray mxDOUBLE_CLASS false numRow numVec
           (rotate_triples
              (iauTr (iauC2ixys (xp + dX)%float (yp + dY)%float s)) xVec)
         :: (if (nlhs >? 1)%Z
             then [rotMat_out
                     (iauTr (iauC2ixys (xp + dX)%float (yp + dY)%float s))]
             else []))).
Proof.
  intros Hin Hmiss Htai Hutc Hst Heop Hc HM HN HdX HdY Hxys Hlen.
  destruct (read_inputs_Ok _ _ _ _ Hin)
    as (_ & x & a1 & a2 & rest & T1 & T2 & _ & _ & _ & _ & Hdim & _ & _ & Hv).
  injection Hv as -> -> -> -> ->.
  rewrite (mexFunction_getEOP_path _ _ _ _ _ _ _ Hin Hmiss).
  assert (offsets_of_response r1 = ([], Ok (dX, dY))) as Hresp.
  { unfold offsets_of_response, check. rewrite Hc, HM, HN, HdX, HdY.
    reflexivity. }
  assert (offsets_from_getEOP T1 T2
          = (lookup_prefix T1 T2 t1 t2 st u1 u2, Ok (dX, dY))) as Hoff.
  { rewrite (offsets_from_getEOP_lookup _ _ _ _ _ _ _ Htai Hutc Hst).
    rewrite Heop, Hresp. cbn [bind]. by rewrite app_nil_r. }
  pose proof (rotation_eq T1 T2 dX dY) as Hrot. rewrite Hxys in Hrot.
  cbn zeta in Hrot. cbn [fst snd].
  set (G := iauC2ixys (xp + dX)%float (yp + dY)%float s) in *.
  pose proof (transform_batch_eq (iauTr G) _ _ _ Hdim Hlen) as Hbatch.
  pose proof (outputs_intro nlhs _ _ _ _ _ Hbatch) as Hout.
  rewrite (bind_Ok_eq _ _ _ _ _ _ Hoff (bind_Ok_eq _ _ _ _ _ _ Hrot Hout)).
  by rewrite app_nil_r.
Qed.

(** C10: a fourth argument that is an empty array is no shape error: the
    call is the call without a fourth argument. Once its first three
    arguments are accepted, it calls [iauTttai] at the TT date of the
    caller, then [iauTaiutc] at the TAI date, then [getEOP] at the UTC
    date, with the errors and the warning of the lookup path, and it builds
    the rotation from the two elements [dX], [dY] that [getEOP] answered:
    [iauC2ixys] is called at [(x+dX, y+dY, s)]. *)
Theorem empty_offsets_as_omitted nlhs x a1 a2 e :
  mxIsEmpty e = true ->
  mexFunction nlhs [x; a1; a2; e] = mexFunction nlhs [x; a1; a2] /\
  (forall numRow numVec xVec TT1 TT2,
      read_inputs nlhs [x; a1; a2; e]
        = ([], Ok (numRow, numVec, xVec, TT1, TT2)) ->
      mexFunction nlhs [x; a1; a2; e]
      = (dXdY <-- offsets_from_getEOP TT1 TT2;;
         rot <-- rotation TT1 TT2 (fst dXdY) (snd dXdY);;
         outputs nlhs (snd rot) numRow numVec xVec)) /\
  (forall TT1 TT2,
      (nlhs <= 2)%Z -> checkRealDoubleArray x = None ->
      mxGetM x = 3 \/ mxGetM x = 6 ->
      getDoubleFromMatlab a1 = inr TT1 -> getDoubleFromMatlab a2 = inr TT2 ->
      (exists tr' r,
          mexFunction nlhs [x; a1; a2; e] = (EvTttai TT1 TT2 :: tr', r)) /\
      (forall st t1 t2,
          iauTttai TT1 TT2 = (st, t1, t2) -> st <> 0%Z ->
          mexFunction nlhs [x; a1; a2; e]
          = ([EvTttai TT1 TT2], Err "An error occurred computing TAI.")) /\
      (forall t1 t2 u1 u2,
          iauTttai TT1 TT2 = (0%Z, t1, t2) ->
          iauTaiutc t1 t2 = ((-1)%Z, u1, u2) ->
          mexFunction nlhs [x; a1; a2; e]
          = ([EvTttai TT1 TT2; EvTaiutc t1 t2],
             Err "Unacceptable date entered")) /\
      (forall t1 t2 st u1 u2,
          iauTttai TT1 TT2 = (0%Z, t1, t2) ->
          iauTaiutc t1 t2 = (st, u1, u2) -> st <> (-1)%Z ->
          (forall msg,
              getEOP u1 u2 = inl msg ->
              mexFunction nlhs [x; a1; a2; e]
              = (lookup_prefix TT1 TT2 t1 t2 st u1 u2, Err msg)) /\
          (forall r0 r1 dX dY xp yp s,
              getEOP u1 u2 = inr (r0, r1) ->
              checkRealDoubleArray r1 = None ->
              mxGetM r1 = 2 -> mxGetN r1 = 1 ->
              mxGetData r1 !! 0 = Some dX -> mxGetData r1 !! 1 = Some dY ->
              iauXys06a TT1 TT2 = (xp, yp, s) ->
              mx_wf x ->
              mexFunction nlhs [x; a1; a2; e]
              = (lookup_prefix TT1 TT2 t1 t2 st u1 u2
                   ++ [EvXys06a TT1 TT2;
                       EvC2ixys (xp + dX)%float (yp + dY)%float s],
                 Ok (MxArray mxDOUBLE_CLASS false (mxGetM x) (mxGetN x)
                       (rotate_triples
                          (iauTr (iauC2ixys (xp + dX)%float (yp + dY)%float s))
                          (mxGetData x))
                     :: (if (nlhs >? 1)%Z
                         then [rotMat_out
                                 (iauTr (iauC2ixys (xp + dX)%float
                                           (yp + dY)%float s))]
                         else [])))))).
Proof.
  intros He.
  assert (offsets_missing [x; a1; a2; e] = ([], Ok true)) as Hmiss
    by (by rewrite offsets_missing_four, He).
  split; [|split].
  - unfold mexFunction.
    rewrite read_inputs_three_four.
    apply bind_ext. intros [[[[numRow numVec] xVec] TT1] TT2].
    rewrite offsets_missing_four, offsets_missing_three, He.
    change (@pair (list event) (res bool) [] (Ok true)) with (ret true).
    by rewrite !bind_ret_l.
  - intros numRow numVec xVec TT1 TT2 Hin.
    by apply mexFunction_getEOP_path.
  - intros TT1 TT2 Hl Hc Hdim H1 H2.
    pose proof (read_inputs_intro nlhs x a1 a2 [e] TT1 TT2
                  (le_n 1) Hl Hc Hdim H1 H2) as Hin.
    pose proof (mexFunction_getEOP_path _ _ _ _ _ _ _ Hin Hmiss) as Hmex.
    split; [|split; [|split]].
    + destruct (mexFunction nlhs [x; a1; a2; e]) as [tr r] eqn:Hres.
      destruct (bind_trace_prefix (offsets_from_getEOP TT1 TT2)
                  (fun dXdY =>
                     rot <-- rotation TT1 TT2 (fst dXdY) (snd dXdY);;
                     outputs nlhs (snd rot) (mxGetM x) (mxGetN x) (mxGetData x)))
        as [tr2 Htr].
      rewrite <- Hmex in Htr. cbn [fst] in Htr.
      destruct (offsets_from_getEOP_starts TT1 TT2) as [tr' Hstart].
      rewrite Hstart in Htr. exists (tr' ++ tr2), r. by rewrite Htr.
    + intros st t1 t2 Htai Hst. rewrite Hmex.
      apply bind_Err_eq. by eapply offsets_from_getEOP_tai_error.
    + intros t1 t2 u1 u2 Htai Hutc. rewrite Hmex.
      apply bind_Err_eq. by eapply offsets_from_getEOP_unacceptable.
    + intros t1 t2 st u1 u2 Htai Hutc Hst. split.
      * intros msg Heop. rewrite Hmex. apply bind_Err_eq.
        rewrite (offsets_from_getEOP_lookup _ _ _ _ _ _ _ Htai Hutc Hst), Heop.
        cbn [bind mexErrMsgTxt]. by rewrite app_nil_r.
      * intros r0 r1 dX dY xp yp s Heop Hc1 HM HN HdX HdY Hxys Hwf.
        by eapply lookup_path_result.
Qed.

End GatewayClaims.

(** ** The pole offsets given by the caller *)

(** C1: a call with the pole offsets [[dX;dY]] as its fourth argument. Line
    141 takes the array from [prhs[4]], behind the four arguments of the
    call: the call leaves the argument array before [iauXys06a] or
    [iauC2ixys] is called, whatever the collaborators are. *)
Theorem explicit_offsets_read_prhs4 :
  forall st_tai st_utc resp,
    mexFunction (ext := Fixture.ext st_tai st_utc resp) 2
      [Fixture.batch3; Fixture.Jul1; Fixture.Jul2; Fixture.dXdY_2x1]
    = ([], OutOfBounds).
Proof. intros. reflexivity. Qed.

(** C2: a call with a 3X1 array as its fourth argument. The shape test of
    line 145 is made on [prhs[4]], so the call leaves the argument array
    instead of raising the error of line 151. *)
Theorem malformed_offsets_read_prhs4 :
  forall st_tai st_utc resp,
    mexFunction (ext := Fixture.ext st_tai st_utc resp) 1
      [Fixture.batch3; Fixture.Jul1; Fixture.Jul2; Fixture.dXdY_3x1]
    = ([], OutOfBounds).
Proof. intros. reflexivity. Qed.

(** * The claims on concrete calls *)

Import Fixture.

Lemma transform_batch_rotates_witness :
  (6 = 3 \/ 6 = 6) /\ length (mxGetData batch6) = 6 * 1 /\
  exists retMat,
    transform_batch R0 6 1 (mxGetData batch6) = Some retMat /\
    load3 (mxGetData retMat) 0 = Some (iauRxp R0 (7000, 0, 0)%float) /\
    load3 (mxGetData retMat) 3 = Some (iauRxp R0 (0, 7.5, 0)%float).
Proof.
  split; [right; reflexivity|]. split; [reflexivity|].
  destruct (transform_batch_rotates R0 6 1 (mxGetData batch6)
              (or_intror eq_refl) eq_refl) as (retMat & HretMat & Hslots).
  exists retMat. split; [exact HretMat|].
  destruct (Hslots 0 (le_n 1)) as (pos & Hpos & Hout & Hvel).
  destruct (Hvel eq_refl) as (vel & Hv & Hvout).
  injection Hpos as <-. injection Hv as <-.
  split; [exact Hout|exact Hvout].
Defined.

Lemma transform_batch_slotwise_witness :
  (3 = 3 \/ 3 = 6) /\ length (mxGetData batch3) = 3 * 2 /\ 1 < 2 /\
  exists retMat single swapped,
    transform_batch R0 3 2 (mxGetData batch3) = Some retMat /\
    transform_batch R0 3 1 [0; 2; 0]%float = Some single /\
    transform_batch R0 3 2 [0; 2; 0; 1; 0; 0]%float = Some swapped /\
    slot 3 1 (mxGetData retMat) = mxGetData single /\
    slot 3 0 (mxGetData swapped) = slot 3 1 (mxGetData retMat).
Proof.
  split; [left; reflexivity|]. split; [reflexivity|]. split; [lia|].
  destruct (transform_batch_slotwise R0 3 2 (mxGetData batch3) 1
              (or_introl eq_refl) eq_refl (le_n 2))
    as (retMat & single & H1 & H2 & H3 & Hother).
  destruct (Hother 2 [0; 2; 0; 1; 0; 0]%float 0 eq_refl (le_S 1 1 (le_n 1)) eq_refl)
    as (swapped & H4 & H5).
  exists retMat, single, swapped.
  split; [exact H1|]. split; [exact H2|]. split; [exact H4|].
  split; [exact H3|exact H5].
Defined.

Lemma CIRS2GCRS_is_transpose_witness :
  exists tr plhs,
    mexFunction (ext := good 0 0) 2 (args batch3) = (tr, Ok plhs) /\
    exists GCRS2CIRS CIRS2GCRS,
      plhs !! 1 = Some (rotMat_out CIRS2GCRS) /\
      forall i j, i < 3 -> j < 3 ->
        mget CIRS2GCRS i j = mget GCRS2CIRS j i.
Proof.
  eassert (mexFunction (ext := good 0 0) 2 (args batch3) = (_, Ok _)) as H
    by (vm_compute; reflexivity).
  eexists. eexists. split; [exact H|].
  destruct (CIRS2GCRS_is_transpose (ext := good 0 0) 2 (args batch3) _ _ H)
    as (x & TT1 & TT2 & dX & dY & tr1 & G & C & retMat
        & _ & _ & _ & Htr & _ & _ & Hrot).
  exists G, C. split; [apply Hrot; lia|exact Htr].
Defined.

Lemma getEOP_path_outcomes_witness :
  (exists tr, mexFunction (ext := good (-1) 0) 1 (args batch3)
              = (tr, Err "An error occurred computing TAI.")) /\
  (exists tr, mexFunction (ext := good 0 (-1)) 1 (args batch3)
              = (tr, Err "Unacceptable date entered")) /\
  (exists tr, mexFunction (ext := ext 0 0 dXdY_1x2) 1 (args batch3)
              = (tr, Err "Error using the getEOP function.")) /\
  (exists tr plhs retMat,
      mexFunction (ext := good 0 1) 1 (args batch3) = (tr, Ok plhs) /\
      EvWarn "Dubious Date entered." ∈ tr /\
      output_batch (mexFunction (ext := good 0 1) 1 (args batch3))
      = Some retMat).
Proof.
  pose (TT1 := 2451545%float). pose (TT2 := 0%float).
  assert (forall E : Z * Z * mxArray,
             let '(a, b, r) := E in
             read_inputs (ext := ext a b r) 1 (args batch3)
             = ([], Ok (3, 2, mxGetData batch3, TT1, TT2))) as Hin
    by (intros [[a b] r]; reflexivity).
  assert (offsets_missing (args batch3) = ([], Ok true)) as Hmiss
    by reflexivity.
  split; [|split; [|split]].
  - destruct (getEOP_path_outcomes (ext := good (-1) 0) 1 (args batch3)
                3 2 (mxGetData batch3) TT1 TT2
                (Hin (-1, 0, dXdY_2x1)%Z) Hmiss) as (P & _).
    eexists. eapply P; [reflexivity|lia].
  - destruct (getEOP_path_outcomes (ext := good 0 (-1)) 1 (args batch3)
                3 2 (mxGetData batch3) TT1 TT2
                (Hin (0, -1, dXdY_2x1)%Z) Hmiss) as (_ & P & _).
    eexists. eapply P; reflexivity.
  - destruct (getEOP_path_outcomes (ext := ext 0 0 dXdY_1x2) 1 (args batch3)
                3 2 (mxGetData batch3) TT1 TT2
                (Hin (0, 0, dXdY_1x2)%Z) Hmiss) as (_ & _ & P & _).
    edestruct P as (msg & Hmex & Hmsg);
      [reflexivity|reflexivity|lia|reflexivity|left; simpl; lia|].
    eexists. rewrite <- (Hmsg eq_refl). exact Hmex.
  - destruct (getEOP_path_outcomes (ext := good 0 1) 1 (args batch3)
                3 2 (mxGetData batch3) TT1 TT2
                (Hin (0, 1, dXdY_2x1)%Z) Hmiss) as (_ & _ & _ & P & _).
    eapply P; reflexivity.
Defined.

Lemma bad_dimension_rejected_witness :
  args batch4 !! 0 = Some batch4 /\ mxGetM batch4 <> 3 /\ mxGetM batch4 <> 6 /\
  mexFunction (ext := good 0 0) 1 (args batch4)
  = ([], Err "The input vector has a bad dimensionality.").
Proof.
  split; [reflexivity|]. split; [simpl; lia|]. split; [simpl; lia|].
  destruct (bad_dimension_rejected (ext := good 0 0) 1 (args batch4) batch4)
    as (msg & Hmex & _ & Hmsg); [reflexivity|simpl; lia|simpl; lia|].
  rewrite <- Hmsg; [exact Hmex|simpl; lia|lia|reflexivity].
Defined.

Lemma output_batch_shape_witness :
  (exists tr plhs retMat,
      mexFunction (ext := good 0 0) 1 (args batch6) = (tr, Ok plhs) /\
      output_batch (mexFunction (ext := good 0 0) 1 (args batch6))
      = Some retMat /\
      mxGetM retMat = 6 /\ mxGetN retMat = 1 /\
      length (mxGetData retMat) = 6) /\
  output_batch (mexFunction (ext := good 0 0) 1 (args batch3_empty))
  = Some (MxArray mxDOUBLE_CLASS false 3 0 []).
Proof.
  split.
  - eassert (mexFunction (ext := good 0 0) 1 (args batch6) = (_, Ok _)) as H
      by (vm_compute; reflexivity).
    destruct (proj1 (output_batch_shape (ext := good 0 0) 1 (args batch6)) _ _ H)
      as (x & retMat & Hx & Hout & _ & HM & HN & Hlen).
    injection Hx as <-.
    eexists. eexists. exists retMat.
    split; [exact H|]. split; [exact Hout|].
    split; [exact HM|]. split; [exact HN|exact Hlen].
  - eassert (offsets_from_getEOP (ext := good 0 0) 2451545%float 0%float
             = (_, Ok (_, _))) as Hoff by (vm_compute; reflexivity).
    destruct (proj2 (output_batch_shape (ext := good 0 0) 1 (args batch3_empty))
                3 [] 2451545%float 0%float _ _ _ eq_refl eq_refl Hoff)
      as (tr & plhs & _ & Hout).
    exact Hout.
Defined.

Lemma rotMat_is_CIRS2GCRS_witness :
  exists tr retMat rotMat CIRS2GCRS,
    mexFunction (ext := good 0 0) 2 (args batch6) = (tr, Ok [retMat; rotMat]) /\
    (1 < 2)%Z /\ mx_wf batch6 /\
    mxGetM rotMat = 3 /\ mxGetN rotMat = 3 /\
    mat3_of_mx rotMat = Some CIRS2GCRS /\
    mxGetData rotMat !! (1 + 3 * 2) = Some (mget CIRS2GCRS 1 2) /\
    load3 (mxGetData retMat) 0 = Some (iauRxp CIRS2GCRS (7000, 0, 0)%float) /\
    load3 (mxGetData retMat) 3 = Some (iauRxp CIRS2GCRS (0, 7.5, 0)%float).
Proof.
  eassert (mexFunction (ext := good 0 0) 2 (args batch6) = (_, Ok _)) as H
    by (vm_compute; reflexivity).
  destruct (rotMat_is_CIRS2GCRS (ext := good 0 0) 2 (args batch6) _ _ H
              eq_refl)
    as (x & TT1 & TT2 & dX & dY & tr1 & G & C & retMat & rotMat
        & Hx & _ & Hplhs & HM & HN & Helem & Hmat & Hslots).
  injection Hx as <-.
  destruct (Hslots eq_refl 0 (le_n 1)) as (pos & Hpos & Hout & Hvel).
  destruct (Hvel eq_refl) as (vel & Hv & Hvout).
  injection Hpos as <-. injection Hv as <-.
  rewrite Hmat in Hout, Hvout.
  eexists. exists retMat, rotMat, C.
  split; [rewrite <- Hplhs; exact H|]. split; [reflexivity|].
  split; [reflexivity|].
  split; [exact HM|]. split; [exact HN|]. split; [exact Hmat|].
  split; [apply Helem; lia|].
  split; [symmetry; exact Hout|symmetry; exact Hvout].
Defined.

Lemma empty_offsets_as_omitted_witness :
  mxIsEmpty dXdY_empty = true /\
  mexFunction (ext := good 0 0) 2 [batch3; Jul1; Jul2; dXdY_empty]
  = mexFunction (ext := good 0 0) 2 [batch3; Jul1; Jul2] /\
  (exists t2 u2 x y s plhs,
      mexFunction (ext := good 0 0) 2 [batch3; Jul1; Jul2; dXdY_empty]
      = ([EvTttai 2451545 0; EvTaiutc 2451545 t2; EvGetEOP 2451545 u2;
          EvXys06a 2451545 0; EvC2ixys x y s], Ok plhs) /\
      (x = 0.5 + 0.0009765625 /\ y = 0.25 + 0.001953125)%float) /\
  (exists t2,
      mexFunction (ext := good 0 (-1)) 2 [batch3; Jul1; Jul2; dXdY_empty]
      = ([EvTttai 2451545 0; EvTaiutc 2451545 t2],
         Err "Unacceptable date entered")) /\
  mexFunction (ext := good (-1) 0) 2 [batch3; Jul1; Jul2; dXdY_empty]
  = ([EvTttai 2451545 0], Err "An error occurred computing TAI.") /\
  (exists tr,
      mexFunction (ext := Probe.eop_fails) 2 [batch3; Jul1; Jul2; dXdY_empty]
      = (tr, Err "Undefined function 'getEOP'.")).
Proof.
  split; [reflexivity|].
  split.
  { exact (proj1 (empty_offsets_as_omitted (ext := good 0 0) 2
                    batch3 Jul1 Jul2 dXdY_empty eq_refl)). }
  split; [|split; [|split]].
  - destruct (empty_offsets_as_omitted (ext := good 0 0) 2
                batch3 Jul1 Jul2 dXdY_empty eq_refl) as (_ & _ & P).
    destruct (P 2451545%float 0%float) as (_ & _ & _ & Q);
      [lia|reflexivity|left; reflexivity|reflexivity|reflexivity|].
    edestruct Q as [_ Q']; [reflexivity|reflexivity|discriminate|].
    eexists _, _, _, _, _, _. split.
    + eapply Q'; reflexivity.
    + split; reflexivity.
  - destruct (empty_offsets_as_omitted (ext := good 0 (-1)) 2
                batch3 Jul1 Jul2 dXdY_empty eq_refl) as (_ & _ & P).
    destruct (P 2451545%float 0%float) as (_ & _ & Q & _);
      [lia|reflexivity|left; reflexivity|reflexivity|reflexivity|].
    eexists. eapply Q; reflexivity.
  - destruct (empty_offsets_as_omitted (ext := good (-1) 0) 2
                batch3 Jul1 Jul2 dXdY_empty eq_refl) as (_ & _ & P).
    destruct (P 2451545%float 0%float) as (_ & Q & _);
      [lia|reflexivity|left; reflexivity|reflexivity|reflexivity|].
    eapply Q; [reflexivity|discriminate].
  - destruct (empty_offsets_as_omitted (ext := Probe.eop_fails) 2
                batch3 Jul1 Jul2 dXdY_empty eq_refl) as (_ & _ & P).
    destruct (P 2451545%float 0%float) as (_ & _ & _ & Q);
      [lia|reflexivity|left; reflexivity|reflexivity|reflexivity|].
    edestruct Q as [Q' _]; [reflexivity|reflexivity|discriminate|].
    eexists. eapply Q'. reflexivity.
Defined.

(** * Further properties of the gateway *)

(** ** The errors of lines 67-86 *)

Section InputErrors.
Context {ext : Externals}.

Lemma read_inputs_counts nlhs x a1 a2 rest :
  length rest <= 1 -> (nlhs <= 2)%Z ->
  read_inputs nlhs (x :: a1 :: a2 :: rest)
  = (check x;;;
     err_if (negb ((mxGetM x =? 3) || (mxGetM x =? 6)))
            "The input vector has a bad dimensionality.";;;
     TT1 <-- get_double a1;;
     TT2 <-- get_double a2;;
     ret (mxGetM x, mxGetN x, mxGetData x, TT1, TT2)).
Proof.
  intros Hrest Hl. unfold read_inputs.
  assert (((Z.of_nat (length (x :: a1 :: a2 :: rest)) <? 3)%Z
           || (Z.of_nat (length (x :: a1 :: a2 :: rest)) >? 4)%Z) = false) as ->.
  { apply orb_false_intro; [apply Z.ltb_ge|rewrite Z.gtb_ltb; apply Z.ltb_ge];
      simpl length; lia. }
  assert ((nlhs >? 2)%Z = false) as -> by (rewrite Z.gtb_ltb; by apply Z.ltb_ge).
  cbn [err_if]. rewrite !bind_ret_l.
  cbn [lookup list_lookup access]. rewrite bind_ret_l.
  apply bind_ext. intros _. apply bind_ext. intros _.
  cbn [lookup list_lookup access]. rewrite bind_ret_l.
  apply bind_ext. intros TT1.
  cbn [lookup list_lookup access]. by rewrite bind_ret_l.
Qed.

(** X1: the errors of the first stage come in the order of the source: the
    number of inputs, the number of outputs, the validation of the batch,
    its dimension, the first part of the date, then the second. Each ends the call before a collaborator is
    called. *)
Theorem input_errors_in_order nlhs prhs :
  (length prhs < 3 \/ 4 < length prhs ->
   mexFunction nlhs prhs = ([], Err "Wrong number of inputs")) /\
  (3 <= length prhs <= 4 -> (2 < nlhs)%Z ->
   mexFunction nlhs prhs = ([], Err "Wrong number of outputs.")) /\
  (forall x a1 a2 rest,
      prhs = x :: a1 :: a2 :: rest -> length rest <= 1 -> (nlhs <= 2)%Z ->
      (forall msg, checkRealDoubleArray x = Some msg ->
                   mexFunction nlhs prhs = ([], Err msg)) /\
      (checkRealDoubleArray x = None -> mxGetM x = 3 \/ mxGetM x = 6 ->
       (forall msg, getDoubleFromMatlab a1 = inl msg ->
                    mexFunction nlhs prhs = ([], Err msg)) /\
       (forall TT1 msg,
           getDoubleFromMatlab a1 = inr TT1 ->
           getDoubleFromMatlab a2 = inl msg ->
           mexFunction nlhs prhs = ([], Err msg)))).
Proof.
  split; [|split].
  - intros Hn. unfold mexFunction. apply bind_Err_eq. unfold read_inputs.
    assert (((Z.of_nat (length prhs) <? 3)%Z
             || (Z.of_nat (length prhs) >? 4)%Z) = true) as ->; [|reflexivity].
    apply orb_true_iff. rewrite Z.gtb_ltb, !Z.ltb_lt. lia.
  - intros Hn Hl. unfold mexFunction. apply bind_Err_eq. unfold read_inputs.
    assert (((Z.of_nat (length prhs) <? 3)%Z
             || (Z.of_nat (length prhs) >? 4)%Z) = false) as ->.
    { apply orb_false_intro; [apply Z.ltb_ge|rewrite Z.gtb_ltb; apply Z.ltb_ge];
        lia. }
    assert ((nlhs >? 2)%Z = true) as -> by (by apply Z.gtb_lt).
    reflexivity.
  - intros x a1 a2 rest -> Hrest Hl. split.
    + intros msg Hc. unfold mexFunction. apply bind_Err_eq.
      rewrite read_inputs_counts by assumption. unfold check. by rewrite Hc.
    + intros Hc Hdim.
      assert (negb ((mxGetM x =? 3) || (mxGetM x =? 6)) = false) as Hd.
      { apply negb_false_iff, orb_true_iff. by rewrite !Nat.eqb_eq. }
      split.
      * intros msg H1. unfold mexFunction. apply bind_Err_eq.
        rewrite read_inputs_counts by assumption.
        unfold check, get_double. rewrite Hc, Hd, H1. reflexivity.
      * intros TT1 msg H1 H2. unfold mexFunction. apply bind_Err_eq.
        rewrite read_inputs_counts by assumption.
        unfold check, get_double. rewrite Hc, Hd, H1, H2. reflexivity.
Qed.

(** The first stage calls no collaborator and stays inside [prhs]. *)
Lemma read_inputs_cases nlhs prhs :
  (exists v, read_inputs nlhs prhs = ([], Ok v)) \/
  (exists msg, read_inputs nlhs prhs = ([], Err msg)).
Proof.
  destruct (Z.ltb_spec (Z.of_nat (length prhs)) 3) as [Hlt|Hge];
    [|destruct (Z.ltb_spec 4 (Z.of_nat (length prhs))) as [Hgt|Hle]].
  1,2: right; eexists; unfold read_inputs.
  1,2: assert (((Z.of_nat (length prhs) <? 3)%Z
                || (Z.of_nat (length prhs) >? 4)%Z) = true) as ->;
    [apply orb_true_iff; rewrite Z.gtb_ltb, !Z.ltb_lt; lia|reflexivity].
  destruct (Z.ltb_spec 2 nlhs) as [Hl|Hl].
  { right. eexists. unfold read_inputs.
    assert (((Z.of_nat (length prhs) <? 3)%Z
             || (Z.of_nat (length prhs) >? 4)%Z) = false) as ->.
    { apply orb_false_intro; [apply Z.ltb_ge|rewrite Z.gtb_ltb; apply Z.ltb_ge];
        lia. }
    assert ((nlhs >? 2)%Z = true) as -> by (by apply Z.gtb_lt).
    reflexivity. }
  destruct prhs as [|x [|a1 [|a2 rest]]]; simpl in Hge; try lia.
  assert (length rest <= 1) as Hrest by (simpl in Hle; lia).
  rewrite read_inputs_counts by assumption.
  unfold check, get_double.
  destruct (checkRealDoubleArray x); [right; by eexists|].
  rewrite bind_ret_l.
  destruct (negb ((mxGetM x =? 3) || (mxGetM x =? 6))); [right; by eexists|].
  cbn [err_if]. rewrite bind_ret_l.
  destruct (getDoubleFromMatlab a1); [right; by eexists|].
  rewrite bind_ret_l.
  destruct (getDoubleFromMatlab a2); [right; by eexists|].
  rewrite bind_ret_l. left. by eexists.
Qed.

End InputErrors.

(** ** The calls that look the pole offsets up *)

Section LookupPath.
Context {ext : Externals}.

Lemma bind_OutOfBounds_inv {A B} (m : M A) (f : A -> M B) tr :
  bind m f = (tr, OutOfBounds) ->
  m = (tr, OutOfBounds) \/
  exists tr1 a tr2, m = (tr1, Ok a) /\ f a = (tr2, OutOfBounds) /\ tr = tr1 ++ tr2.
Proof.
  destruct m as [tr1 [a|msg|]]; simpl; try discriminate.
  - destruct (f a) as [tr2 r] eqn:E. intros [= <- ->]. right. by exists tr1, a, tr2.
  - intros [= <-]. by left.
Qed.

(** The answer of [getEOP] is read inside its buffer when the buffer has
    the size the array says. *)
Lemma offsets_of_response_in_bounds r tr :
  mx_wf r -> offsets_of_response r <> (tr, OutOfBounds).
Proof.
  intros Hwf H. unfold offsets_of_response, check in H.
  destruct (checkRealDoubleArray r); [discriminate|].
  rewrite bind_ret_l in H.
  destruct (mxGetM r =? 2) eqn:HM; [|discriminate].
  destruct (mxGetN r =? 1) eqn:HN; [|discriminate].
  apply Nat.eqb_eq in HM, HN. unfold mx_wf in Hwf. rewrite HM, HN in Hwf.
  destruct (mxGetData r) as [|dX [|dY [|? ?]]]; discriminate.
Qed.

(** What the lookup has done when it gives the pole offsets. *)
Lemma offsets_from_getEOP_Ok TT1 TT2 tr dX dY :
  offsets_from_getEOP TT1 TT2 = (tr, Ok (dX, dY)) ->
  exists t1 t2 st u1 u2 r0 r1,
    iauTttai TT1 TT2 = (0%Z, t1, t2) /\
    iauTaiutc t1 t2 = (st, u1, u2) /\ st <> (-1)%Z /\
    getEOP u1 u2 = inr (r0, r1) /\
    offsets_of_response r1 = ([], Ok (dX, dY)) /\
    tr = lookup_prefix TT1 TT2 t1 t2 st u1 u2.
Proof.
  intros H.
  destruct (iauTttai TT1 TT2) as [[st0 t1] t2] eqn:Htai.
  destruct (Z.eq_dec st0 0%Z) as [-> | Hst0].
  2: { rewrite (offsets_from_getEOP_tai_error _ _ _ _ _ Htai Hst0) in H.
       discriminate. }
  destruct (iauTaiutc t1 t2) as [[st u1] u2] eqn:Hutc.
  destruct (Z.eq_dec st (-1)%Z) as [-> | Hst].
  { rewrite (offsets_from_getEOP_unacceptable _ _ _ _ _ _ Htai Hutc) in H.
    discriminate. }
  rewrite (offsets_from_getEOP_lookup _ _ _ _ _ _ _ Htai Hutc Hst) in H.
  destruct (getEOP u1 u2) as [msg|[r0 r1]] eqn:Heop; [discriminate|].
  cbn [bind] in H.
  destruct (offsets_of_response r1) as [tr' r] eqn:Hresp.
  injection H as <- ->.
  apply offsets_of_response_Ok in Hresp as Hfacts. destruct Hfacts as (-> & _).
  exists t1, t2, st, u1, u2, r0, r1. rewrite app_nil_r. by repeat split.
Qed.

Lemma offsets_from_getEOP_in_bounds TT1 TT2 tr :
  (forall u1 u2 r0 r1, getEOP u1 u2 = inr (r0, r1) -> mx_wf r1) ->
  offsets_from_getEOP TT1 TT2 <> (tr, OutOfBounds).
Proof.
  intros Hwf H.
  destruct (iauTttai TT1 TT2) as [[st0 t1] t2] eqn:Htai.
  destruct (Z.eq_dec st0 0%Z) as [-> | Hst0].
  2: { rewrite (offsets_from_getEOP_tai_error _ _ _ _ _ Htai Hst0) in H.
       discriminate. }
  destruct (iauTaiutc t1 t2) as [[st u1] u2] eqn:Hutc.
  destruct (Z.eq_dec st (-1)%Z) as [-> | Hst].
  { rewrite (offsets_from_getEOP_unacceptable _ _ _ _ _ _ Htai Hutc) in H.
    discriminate. }
  rewrite (offsets_from_getEOP_lookup _ _ _ _ _ _ _ Htai Hutc Hst) in H.
  destruct (getEOP u1 u2) as [msg|[r0 r1]] eqn:Heop; [discriminate|].
  cbn [bind] in H.
  destruct (offsets_of_response r1) as [tr' r] eqn:Hresp.
  injection H as <- ->.
  by apply (offsets_of_response_in_bounds r1 tr' (Hwf _ _ _ _ Heop)).
Qed.

(** X2: the result of a call without pole offsets whose dates are accepted and
    whose lookup answers with a 2X1 array: the collaborators are called once
    each, in the order [iauTttai], [iauTaiutc], [getEOP], [iauXys06a],
    [iauC2ixys]; [iauXys06a] is evaluated at the TT date of the caller and
    [getEOP] at the UTC date; the status of [iauTaiutc] only decides on the
    warning; the first array of [getEOP] plays no part. *)
Theorem lookup_call_result nlhs prhs numRow numVec xVec TT1 TT2
    t1 t2 st u1 u2 r0 r1 dX dY xp yp s :
  read_inputs nlhs prhs = ([], Ok (numRow, numVec, xVec, TT1, TT2)) ->
  offsets_missing prhs = ([], Ok true) ->
  iauTttai TT1 TT2 = (0%Z, t1, t2) ->
  iauTaiutc t1 t2 = (st, u1, u2) -> st <> (-1)%Z ->
  getEOP u1 u2 = inr (r0, r1) ->
  checkRealDoubleArray r1 = None -> mxGetM r1 = 2 -> mxGetN r1 = 1 ->
  mxGetData r1 !! 0 = Some dX -> mxGetData r1 !! 1 = Some dY ->
  iauXys06a TT1 TT2 = (xp, yp, s) ->
  length xVec = numRow * numVec ->
  mexFunction nlhs prhs
  = (lookup_prefix TT1 TT2 t1 t2 st u1 u2
       ++ [EvXys06a TT1 TT2; EvC2ixys (xp + dX)%float (yp + dY)%float s],
     Ok (MxArray mxDOUBLE_CLASS false numRow numVec
           (rotate_triples
              (iauTr (iauC2ixys (xp + dX)%float (yp + dY)%float s)) xVec)
         :: (if (nlhs >? 1)%Z
             then [rotMat_out
                     (iauTr (iauC2ixys (xp + dX)%float (yp + dY)%float s))]
             else []))).
Proof.
  intros Hin Hmiss Htai Hutc Hst Heop Hc HM HN HdX HdY Hxys Hlen.
  destruct (read_inputs_Ok _ _ _ _ Hin)
    as (_ & x & a1 & a2 & rest & T1 & T2 & _ & _ & _ & _ & Hdim & _ & _ & Hv).
  injection Hv as -> -> -> -> ->.
  rewrite (mexFunction_getEOP_path _ _ _ _ _ _ _ Hin Hmiss).
  assert (offsets_of_response r1 = ([], Ok (dX, dY))) as Hresp.
  { unfold offsets_of_response, check. rewrite Hc, HM, HN, HdX, HdY.
    reflexivity. }
  assert (offsets_from_getEOP T1 T2
          = (lookup_prefix T1 T2 t1 t2 st u1 u2, Ok (dX, dY))) as Hoff.
  { rewrite (offsets_from_getEOP_lookup _ _ _ _ _ _ _ Htai Hutc Hst).
    rewrite Heop, Hresp. cbn [bind]. by rewrite app_nil_r. }
  pose proof (rotation_eq T1 T2 dX dY) as Hrot. rewrite Hxys in Hrot.
  cbn zeta in Hrot. cbn [fst snd].
  set (G := iauC2ixys (xp + dX)%float (yp + dY)%float s) in *.
  pose proof (transform_batch_eq (iauTr G) _ _ _ Hdim Hlen) as Hbatch.
  pose proof (outputs_intro nlhs _ _ _ _ _ Hbatch) as Hout.
  rewrite (bind_Ok_eq _ _ _ _ _ _ Hoff (bind_Ok_eq _ _ _ _ _ _ Hrot Hout)).
  by rewrite app_nil_r.
Qed.

(** X3: every call that returns has looked the pole offsets up: its fourth
    argument is absent or empty, its dates went through [iauTttai] and
    [iauTaiutc] without error, [getEOP] answered with a 2X1 array, and its
    trace is the five calls in order, with the warning when the status of
    [iauTaiutc] is 1. *)
Theorem returning_call_trace nlhs prhs tr plhs :
  mexFunction nlhs prhs = (tr, Ok plhs) ->
  exists a1 a2 TT1 TT2 t1 t2 st u1 u2 r0 r1 dX dY xp yp s,
    prhs !! 1 = Some a1 /\ getDoubleFromMatlab a1 = inr TT1 /\
    prhs !! 2 = Some a2 /\ getDoubleFromMatlab a2 = inr TT2 /\
    (length prhs = 3 \/ exists e, prhs !! 3 = Some e /\ mxIsEmpty e = true) /\
    iauTttai TT1 TT2 = (0%Z, t1, t2) /\
    iauTaiutc t1 t2 = (st, u1, u2) /\ st <> (-1)%Z /\
    getEOP u1 u2 = inr (r0, r1) /\
    mxGetM r1 = 2 /\ mxGetN r1 = 1 /\
    mxGetData r1 !! 0 = Some dX /\ mxGetData r1 !! 1 = Some dY /\
    iauXys06a TT1 TT2 = (xp, yp, s) /\
    tr = lookup_prefix TT1 TT2 t1 t2 st u1 u2
         ++ [EvXys06a TT1 TT2; EvC2ixys (xp + dX)%float (yp + dY)%float s].
Proof.
  intros H.
  apply mexFunction_Ok_inv in H
    as (x & TT1 & TT2 & tr0 & dX & dY & tr1 & G & C & retMat
        & Hx & Hin & Hmiss & Hoff & Hrot & _ & _ & ->).
  apply read_inputs_Ok in Hin
    as (_ & x' & a1 & a2 & rest & T1 & T2 & -> & Hrest & _ & _ & _ & H1 & H2 & Hv).
  injection Hx as ->. injection Hv as -> ->.
  rename T1 into TT1, T2 into TT2.
  apply offsets_from_getEOP_Ok in Hoff
    as (t1 & t2 & st & u1 & u2 & r0 & r1 & Htai & Hutc & Hst & Heop & Hresp & ->).
  apply offsets_of_response_Ok in Hresp as (_ & _ & HM & HN & HdX & HdY).
  pose proof (rotation_eq TT1 TT2 dX dY) as Heq. rewrite Hrot in Heq.
  destruct (iauXys06a TT1 TT2) as [[xp yp] s] eqn:Hxys.
  injection Heq as -> _ _.
  exists a1, a2, TT1, TT2, t1, t2, st, u1, u2, r0, r1, dX, dY, xp, yp, s.
  repeat (split; [done|]).
  split; [|done].
  destruct rest as [|e [|? ?]]; simpl in Hrest; try lia; [by left|].
  right. exists e. split; [reflexivity|].
  rewrite offsets_missing_four in Hmiss. by injection Hmiss.
Qed.

(** X4: a lookup that fails, or whose second array is refused by
    [checkRealDoubleArray], ends the call with that error after the three
    calls for the date and the lookup: neither [iauXys06a] nor [iauC2ixys]
    is called. *)
Theorem lookup_failure_ends_call nlhs prhs numRow numVec xVec TT1 TT2
    t1 t2 st u1 u2 :
  read_inputs nlhs prhs = ([], Ok (numRow, numVec, xVec, TT1, TT2)) ->
  offsets_missing prhs = ([], Ok true) ->
  iauTttai TT1 TT2 = (0%Z, t1, t2) ->
  iauTaiutc t1 t2 = (st, u1, u2) -> st <> (-1)%Z ->
  (forall msg,
      getEOP u1 u2 = inl msg ->
      mexFunction nlhs prhs = (lookup_prefix TT1 TT2 t1 t2 st u1 u2, Err msg)) /\
  (forall r0 r1 msg,
      getEOP u1 u2 = inr (r0, r1) -> checkRealDoubleArray r1 = Some msg ->
      mexFunction nlhs prhs = (lookup_prefix TT1 TT2 t1 t2 st u1 u2, Err msg)).
Proof.
  intros Hin Hmiss Htai Hutc Hst.
  rewrite (mexFunction_getEOP_path _ _ _ _ _ _ _ Hin Hmiss).
  rewrite (offsets_from_getEOP_lookup _ _ _ _ _ _ _ Htai Hutc Hst).
  split.
  - intros msg Heop. apply bind_Err_eq. rewrite Heop. cbn [bind mexErrMsgTxt].
    by rewrite app_nil_r.
  - intros r0 r1 msg Heop Hc. apply bind_Err_eq. rewrite Heop.
    unfold offsets_of_response, check. rewrite Hc. cbn [bind mexErrMsgTxt].
    by rewrite app_nil_r.
Qed.

(** The stores of lines 205-209 all fall inside the nine elements of the
    3X3 matrix, and leave in it what [rotMat_out] holds. *)
Lemma rotMat_out_checked_eq C : rotMat_out_checked C = Some (rotMat_out C).
Proof. by destruct C as [[[[a b] c] [[d e] f]] [[g h] k]]. Qed.

(** X5: with arrays that hold as many elements as their sizes say, a call
    leaves an array exactly when it has a fourth argument that is not empty
    and its first three arguments are accepted: the read of [prhs[4]] is
    the only access outside an array. The reads of [prhs], of the answer of
    [getEOP] and of the batch and the writes of the output batch are the
    checked accesses of the call; the nine stores of the rotation matrix,
    checked one by one, all succeed and give the matrix that is returned. *)
Theorem out_of_bounds_iff_fourth_argument nlhs prhs :
  (forall x, prhs !! 0 = Some x -> mx_wf x) ->
  (forall u1 u2 r0 r1, getEOP u1 u2 = inr (r0, r1) -> mx_wf r1) ->
  (outcome (mexFunction nlhs prhs) = OutOfBounds <->
   (exists v, read_inputs nlhs prhs = ([], Ok v)) /\
   (exists d, prhs !! 3 = Some d /\ mxIsEmpty d = false)) /\
  (forall CIRS2GCRS,
      rotMat_out_checked CIRS2GCRS = Some (rotMat_out CIRS2GCRS)).
Proof.
  intros Hbatch Hresp. split; [|apply rotMat_out_checked_eq]. split.
  - intros H.
    destruct (mexFunction nlhs prhs) as [tr r] eqn:Hmex. cbn in H. subst r.
    destruct (read_inputs_cases nlhs prhs) as [[v Hin]|[msg Hin]].
    2: { unfold mexFunction in Hmex.
         rewrite (bind_Err_eq _ _ _ _ Hin) in Hmex. discriminate. }
    split; [by exists v|].
    destruct (read_inputs_Ok _ _ _ _ Hin)
      as (_ & x & a1 & a2 & rest & TT1 & TT2 & -> & Hrest & _ & _ & Hdim & _ & _ & ->).
    destruct rest as [|d [|? ?]]; simpl in Hrest; try lia.
    + exfalso.
      rewrite (mexFunction_getEOP_path _ _ _ _ _ _ _ Hin
                 (offsets_missing_three x a1 a2)) in Hmex.
      apply bind_OutOfBounds_inv in Hmex
        as [Hoff|(tr0 & [dX dY] & tr' & _ & Hmex & _)].
      { by apply (offsets_from_getEOP_in_bounds _ _ _ Hresp) in Hoff. }
      cbn [fst snd] in Hmex. rewrite rotation_eq in Hmex.
      destruct (iauXys06a TT1 TT2) as [[xp yp] s]. cbn [bind snd] in Hmex.
      rewrite (outputs_intro nlhs _ _ _ _ _
                 (transform_batch_eq _ _ _ _ Hdim (Hbatch x eq_refl))) in Hmex.
      discriminate.
    + exists d. split; [reflexivity|].
      destruct (mxIsEmpty d) eqn:He; [exfalso|reflexivity].
      assert (offsets_missing [x; a1; a2; d] = ([], Ok true)) as Hmiss
        by (by rewrite offsets_missing_four, He).
      rewrite (mexFunction_getEOP_path _ _ _ _ _ _ _ Hin Hmiss) in Hmex.
      apply bind_OutOfBounds_inv in Hmex
        as [Hoff|(tr0 & [dX dY] & tr' & _ & Hmex & _)].
      { by apply (offsets_from_getEOP_in_bounds _ _ _ Hresp) in Hoff. }
      cbn [fst snd] in Hmex. rewrite rotation_eq in Hmex.
      destruct (iauXys06a TT1 TT2) as [[xp yp] s]. cbn [bind snd] in Hmex.
      rewrite (outputs_intro nlhs _ _ _ _ _
                 (transform_batch_eq _ _ _ _ Hdim (Hbatch x eq_refl))) in Hmex.
      discriminate.
  - intros [[v Hin] (d & Hd & Hne)].
    by rewrite (mexFunction_args_path _ _ _ _ Hin Hd Hne).
Qed.

End LookupPath.

(** ** Batches put together and taken apart *)

Section BatchShapes.
Variable R : mat3.

Lemma rotate_triples_app k (l1 l2 : list float) :
  length l1 = 3 * k ->
  rotate_triples R (l1 ++ l2) = rotate_triples R l1 ++ rotate_triples R l2.
Proof.
  revert l1. induction k as [|k IH]; intros l1 Hlen.
  - by destruct l1.
  - destruct l1 as [|a [|b [|c l1]]]; simpl in Hlen; try lia.
    cbn [app rotate_triples]. rewrite IH by lia. by rewrite app_assoc.
Qed.

(** X6: a batch of [numVec] vectors of dimension 6 is transformed as the batch
    of [2 * numVec] vectors of dimension 3 in the same buffer: positions and
    velocities get the same treatment. *)
Theorem transform_batch_6_as_3 numVec (xVec : list float) :
  length xVec = 6 * numVec ->
  exists out6 out3,
    transform_batch R 6 numVec xVec = Some out6 /\
    transform_batch R 3 (2 * numVec) xVec = Some out3 /\
    mxGetData out6 = mxGetData out3.
Proof.
  intros Hlen.
  rewrite (transform_batch_eq R 6 numVec xVec (or_intror eq_refl) Hlen).
  rewrite (transform_batch_eq R 3 (2 * numVec) xVec (or_introl eq_refl))
    by lia.
  by eexists _, _.
Qed.

(** X7: the transform of two batches of the same dimension put one after the
    other is the transform of the first followed by the transform of the
    second. *)
Theorem transform_batch_app numRow n1 n2 (xs1 xs2 : list float) :
  numRow = 3 \/ numRow = 6 ->
  length xs1 = numRow * n1 -> length xs2 = numRow * n2 ->
  exists out1 out2 out,
    transform_batch R numRow n1 xs1 = Some out1 /\
    transform_batch R numRow n2 xs2 = Some out2 /\
    transform_batch R numRow (n1 + n2) (xs1 ++ xs2) = Some out /\
    mxGetData out = mxGetData out1 ++ mxGetData out2.
Proof.
  intros HnumRow Hlen1 Hlen2.
  rewrite (transform_batch_eq R numRow n1 xs1 HnumRow Hlen1).
  rewrite (transform_batch_eq R numRow n2 xs2 HnumRow Hlen2).
  rewrite (transform_batch_eq R numRow (n1 + n2) (xs1 ++ xs2) HnumRow)
    by (rewrite length_app; lia).
  eexists _, _, _. repeat (split; [reflexivity|]). cbn [mxGetData].
  destruct HnumRow as [-> | ->].
  - by apply (rotate_triples_app n1).
  - apply (rotate_triples_app (2 * n1)). lia.
Qed.

End BatchShapes.

(** ** The arrays a call returns *)

Section Outputs.
Context {ext : Externals}.

Lemma transform_batch_real_double R numRow numVec xVec retMat :
  transform_batch R numRow numVec xVec = Some retMat ->
  real_double_matrix retMat.
Proof.
  intros H. pose proof (transform_batch_shape _ _ _ _ _ H) as (HM & HN & Hlen).
  unfold transform_batch in H.
  destruct (transform_loop _ _ _ _ _ _) as [out|]; simpl in H; [|discriminate].
  injection H as <-. repeat split. unfold mx_wf. by rewrite Hlen, HM, HN.
Qed.

Lemma rotMat_out_real_double C : real_double_matrix (rotMat_out C).
Proof. by destruct C as [[[[a b] c] [[d e] f]] [[g h] k]]. Qed.

Lemma rotMat_out_rows G : mxGetData (rotMat_out (iauTr G)) = mat3_to_rows G.
Proof. by destruct G as [[[[a b] c] [[d e] f]] [[g h] k]]. Qed.

(** X8: a call that returns gives one array, or two when [nlhs] is 2, never
    more; each is a real double matrix with as many elements as its size
    says, whatever the size of the input buffer. *)
Theorem outputs_well_formed nlhs prhs tr plhs :
  mexFunction nlhs prhs = (tr, Ok plhs) ->
  (nlhs <= 2)%Z /\
  length plhs = (if (nlhs =? 2)%Z then 2 else 1) /\
  Forall real_double_matrix plhs.
Proof.
  intros H.
  apply mexFunction_Ok_inv in H
    as (x & TT1 & TT2 & tr0 & dX & dY & tr1 & G & C & retMat
        & _ & Hin & _ & _ & _ & HretMat & -> & _).
  apply read_inputs_Ok in Hin as (_ & _ & _ & _ & _ & _ & _ & _ & _ & Hl & _).
  apply transform_batch_real_double in HretMat.
  split; [assumption|].
  destruct (Z.eqb_spec nlhs 2) as [-> | Hne].
  - cbn. split; [reflexivity|].
    constructor; [assumption|].
    constructor; [apply rotMat_out_real_double|constructor].
  - assert ((nlhs >? 1)%Z = false) as ->.
    { rewrite Z.gtb_ltb. apply Z.ltb_ge. lia. }
    split; [reflexivity|]. constructor; [assumption|constructor].
Qed.

(** X9: the buffer of the rotation matrix a call returns holds, row after row,
    the matrix that [iauC2ixys] gave for the arguments of its call in the
    trace: the transposition of line 172 and the column-major storage of
    line 207 cancel. *)
Theorem rotMat_buffer_is_GCRS2CIRS_rows nlhs prhs tr plhs :
  mexFunction nlhs prhs = (tr, Ok plhs) -> (1 < nlhs)%Z ->
  exists tr0 x y s rotMat,
    tr = tr0 ++ [EvC2ixys x y s] /\
    plhs !! 1 = Some rotMat /\
    mxGetData rotMat = mat3_to_rows (iauC2ixys x y s).
Proof.
  intros H Hn.
  apply mexFunction_Ok_inv in H
    as (x & TT1 & TT2 & tr0 & dX & dY & tr1 & G & C & retMat
        & _ & _ & _ & _ & Hrot & _ & -> & ->).
  apply Z.gtb_lt in Hn. rewrite Hn.
  pose proof (rotation_eq TT1 TT2 dX dY) as Heq. rewrite Hrot in Heq.
  destruct (iauXys06a TT1 TT2) as [[xp yp] s].
  injection Heq as -> -> ->.
  exists (tr0 ++ [EvXys06a TT1 TT2]), (xp + dX)%float, (yp + dY)%float, s,
    (rotMat_out (iauTr (iauC2ixys (xp + dX)%float (yp + dY)%float s))).
  split; [by rewrite <- app_assoc|]. split; [reflexivity|].
  apply rotMat_out_rows.
Qed.

End Outputs.

(** ** The further properties on concrete calls *)

Lemma input_errors_in_order_witness :
  mexFunction (ext := good 0 0) 1 [batch3; Jul1]
  = ([], Err "Wrong number of inputs") /\
  mexFunction (ext := good 0 0) 3 (args batch3)
  = ([], Err "Wrong number of outputs.") /\
  mexFunction (ext := good 0 0) 1 (args Probe.complex_batch)
  = ([], Err "A parameter that should be real has an imaginary component.") /\
  mexFunction (ext := good 0 0) 1 [batch3; batch6; Jul2]
  = ([], Err "A parameter that should be scalar is not.") /\
  mexFunction (ext := good 0 0) 1 [batch3; Jul1; batch6]
  = ([], Err "A parameter that should be scalar is not.").
Proof.
  split; [|split; [|split; [|split]]].
  - apply (proj1 (input_errors_in_order (ext := good 0 0) 1 [batch3; Jul1])).
    left. simpl. lia.
  - apply (proj1 (proj2 (input_errors_in_order (ext := good 0 0) 3 (args batch3)))).
    + simpl. lia.
    + lia.
  - destruct (proj2 (proj2 (input_errors_in_order (ext := good 0 0) 1
                              (args Probe.complex_batch)))
                Probe.complex_batch Jul1 Jul2 [] eq_refl (le_0_n 1))
      as [P _]; [lia|].
    apply P. reflexivity.
  - destruct (proj2 (proj2 (input_errors_in_order (ext := good 0 0) 1
                              [batch3; batch6; Jul2]))
                batch3 batch6 Jul2 [] eq_refl (le_0_n 1))
      as [_ P]; [lia|].
    destruct (P eq_refl (or_introl eq_refl)) as [P1 _].
    apply P1. reflexivity.
  - destruct (proj2 (proj2 (input_errors_in_order (ext := good 0 0) 1
                              [batch3; Jul1; batch6]))
                batch3 Jul1 batch6 [] eq_refl (le_0_n 1))
      as [_ P]; [lia|].
    destruct (P eq_refl (or_introl eq_refl)) as [_ P2].
    eapply P2; reflexivity.
Defined.

Lemma lookup_call_result_witness :
  exists tr retMat rotMat,
    mexFunction (ext := good 0 1) 2 (args batch6) = (tr, Ok [retMat; rotMat]) /\
    length tr = 6 /\ tr !! 2 = Some (EvWarn "Dubious Date entered.") /\
    mxGetM retMat = 6 /\ mxGetN retMat = 1.
Proof.
  eexists. eexists. eexists. split.
  - eapply (lookup_call_result (ext := good 0 1) 2 (args batch6)
              6 1 (mxGetData batch6) 2451545%float 0%float);
      try reflexivity.
    discriminate.
  - repeat split.
Defined.

Lemma returning_call_trace_witness :
  exists tr plhs pre TT1 TT2 x y s st,
    mexFunction (ext := good 0 0) 1 (args batch3) = (tr, Ok plhs) /\
    tr = pre ++ [EvXys06a TT1 TT2; EvC2ixys x y s] /\
    getDoubleFromMatlab (Externals := good 0 0) Jul1 = inr TT1 /\
    (exists t1 t2 u1 u2, pre = lookup_prefix TT1 TT2 t1 t2 st u1 u2) /\
    st <> (-1)%Z.
Proof.
  eassert (mexFunction (ext := good 0 0) 1 (args batch3) = (_, Ok _)) as H
    by (vm_compute; reflexivity).
  destruct (returning_call_trace (ext := good 0 0) 1 (args batch3) _ _ H)
    as (a1 & a2 & TT1 & TT2 & t1 & t2 & st & u1 & u2 & r0 & r1 & dX & dY
        & xp & yp & s & Ha1 & HT1 & _ & _ & _ & _ & _ & Hst & _ & _ & _ & _ & _
        & _ & Htr).
  injection Ha1 as <-.
  eexists. eexists.
  exists (lookup_prefix TT1 TT2 t1 t2 st u1 u2), TT1, TT2,
    (xp + dX)%float, (yp + dY)%float, s, st.
  split; [exact H|]. split; [exact Htr|]. split; [exact HT1|].
  split; [by exists t1, t2, u1, u2|exact Hst].
Defined.

Lemma lookup_failure_ends_call_witness :
  (exists tr, mexFunction (ext := Probe.eop_fails) 1 (args batch3)
              = (tr, Err "Undefined function 'getEOP'.")) /\
  (exists tr, mexFunction (ext := ext 0 0 Probe.complex_2x1) 1 (args batch3)
              = (tr, Err "A parameter that should be real has an imaginary component.")).
Proof.
  split.
  - destruct (lookup_failure_ends_call (ext := Probe.eop_fails) 1 (args batch3)
                3 2 (mxGetData batch3) 2451545%float 0%float
                _ _ 0%Z _ _ eq_refl eq_refl eq_refl eq_refl)
      as [P _]; [discriminate|].
    eexists. apply P. reflexivity.
  - destruct (lookup_failure_ends_call (ext := ext 0 0 Probe.complex_2x1) 1
                (args batch3) 3 2 (mxGetData batch3) 2451545%float 0%float
                _ _ 0%Z _ _ eq_refl eq_refl eq_refl eq_refl)
      as [_ P]; [discriminate|].
    eexists. eapply P; reflexivity.
Defined.

Lemma out_of_bounds_iff_fourth_argument_witness :
  outcome (mexFunction (ext := good 0 0) 1 [batch6; Jul1; Jul2; dXdY_1x2])
  = OutOfBounds /\
  outcome (mexFunction (ext := good 0 0) 2 (args batch6)) <> OutOfBounds /\
  rotMat_out_checked R0 = Some (rotMat_out R0).
Proof.
  assert (forall u1 u2 r0 r1,
             getEOP (Externals := good 0 0) u1 u2 = inr (r0, r1) -> mx_wf r1)
    as Hresp.
  { intros u1 u2 r0 r1 H. injection H as _ <-. reflexivity. }
  split; [|split].
  - apply (proj1 (out_of_bounds_iff_fourth_argument (ext := good 0 0) 1
                    [batch6; Jul1; Jul2; dXdY_1x2]
                    ltac:(intros x Hx; injection Hx as <-; reflexivity) Hresp)).
    split; [eexists; reflexivity|].
    exists dXdY_1x2. split; reflexivity.
  - intros H.
    apply (proj1 (out_of_bounds_iff_fourth_argument (ext := good 0 0) 2
                    (args batch6)
                    ltac:(intros x Hx; injection Hx as <-; reflexivity) Hresp))
      in H as [_ (d & Hd & _)].
    discriminate.
  - apply (proj2 (out_of_bounds_iff_fourth_argument (ext := good 0 0) 2
                    (args batch6)
                    ltac:(intros x Hx; injection Hx as <-; reflexivity) Hresp)).
Defined.

Lemma transform_batch_6_as_3_witness :
  length (mxGetData batch6) = 6 * 1 /\
  exists out6 out3,
    transform_batch R0 6 1 (mxGetData batch6) = Some out6 /\
    transform_batch R0 3 2 (mxGetData batch6) = Some out3 /\
    mxGetData out6 = mxGetData out3.
Proof.
  split; [reflexivity|].
  exact (transform_batch_6_as_3 R0 1 (mxGetData batch6) eq_refl).
Defined.

Lemma transform_batch_app_witness :
  (3 = 3 \/ 3 = 6) /\ length [1; 0; 0]%float = 3 * 1 /\
  length (mxGetData batch3) = 3 * 2 /\
  exists out1 out2 out,
    transform_batch R0 3 1 [1; 0; 0]%float = Some out1 /\
    transform_batch R0 3 2 (mxGetData batch3) = Some out2 /\
    transform_batch R0 3 3 ([1; 0; 0]%float ++ mxGetData batch3) = Some out /\
    mxGetData out = mxGetData out1 ++ mxGetData out2.
Proof.
  split; [left; reflexivity|]. split; [reflexivity|]. split; [reflexivity|].
  exact (transform_batch_app R0 3 1 2 [1; 0; 0]%float (mxGetData batch3)
           (or_introl eq_refl) eq_refl eq_refl).
Defined.

Lemma outputs_well_formed_witness :
  exists tr plhs,
    mexFunction (ext := good 0 0) 2 (args batch6) = (tr, Ok plhs) /\
    length plhs = 2 /\ Forall real_double_matrix plhs.
Proof.
  eassert (mexFunction (ext := good 0 0) 2 (args batch6) = (_, Ok _)) as H
    by (vm_compute; reflexivity).
  destruct (outputs_well_formed (ext := good 0 0) 2 (args batch6) _ _ H)
    as (_ & Hlen & Hall).
  eexists. eexists. split; [exact H|]. split; [exact Hlen|exact Hall].
Defined.

Lemma rotMat_buffer_is_GCRS2CIRS_rows_witness :
  exists tr plhs tr0 x y s rotMat,
    mexFunction (ext := good 0 0) 2 (args batch3) = (tr, Ok plhs) /\
    (1 < 2)%Z /\
    tr = tr0 ++ [EvC2ixys x y s] /\
    plhs !! 1 = Some rotMat /\
    mxGetData rotMat = mat3_to_rows (c2ixys x y s).
Proof.
  eassert (mexFunction (ext := good 0 0) 2 (args batch3) = (_, Ok _)) as H
    by (vm_compute; reflexivity).
  destruct (rotMat_buffer_is_GCRS2CIRS_rows (ext := good 0 0) 2 (args batch3)
              _ _ H eq_refl)
    as (tr0 & x & y & s & rotMat & Htr & Hplhs & Hdata).
  eexists. eexists. exists tr0, x, y, s, rotMat.
  split; [exact H|]. split; [reflexivity|]. split; [exact Htr|].
  split; [exact Hplhs|exact Hdata].
Defined.
